(** * Blogicum: visibility and ownership policy of the [blog] application

    A shallow embedding of [blog/views.py], [blog/forms.py] and
    [blog/urls.py].  Database tables are finite maps from primary key to row,
    querysets are lists of (primary key, row) pairs, a view is a function of
    the database, the request data and the request time, and an exception
    raised inside a view is an explicit outcome. *)

From Stdlib Require Import Ascii.
From stdpp Require Import gmap strings list fin_maps sorting pretty.

Local Open Scope Z_scope.

(** ** Models *)

(** Modelled from the spec: [blog/models.py] is not part of the sources.  The
    rows below carry the attributes the data model of the specification
    lists for each entity; a foreign key is the primary key of the row it
    points to, an optional one is an [option]. *)

Module User.
Record t := mk {
  username : string;
  first_name : string;
  last_name : string;
  email : string }.
End User.

Module Category.
Record t := mk {
  slug : string;
  is_published : bool }.
End Category.

Module Location.
Record t := mk {
  name : string }.
End Location.

Module Post.
Record t := mk {
  title : string;
  text : string;
  pub_date : Z;
  is_published : bool;
  author : Z;
  category : option Z;
  location : option Z }.
End Post.

Module Comment.
Record t := mk {
  post : Z;
  author : Z;
  text : string }.
End Comment.

(** The relational store: one table per model, keyed by primary key. *)
Record DB := mkDB {
  users : gmap Z User.t;
  categories : gmap Z Category.t;
  locations : gmap Z Location.t;
  posts : gmap Z Post.t;
  comments : gmap Z Comment.t }.

(** ** The framework's vocabulary *)

(** [request.user]: the anonymous user, or the row the session's user id
    loads.  Two users are equal when they are rows of the same primary key;
    [AnonymousUser] equals no stored user. *)
Inductive RequestUser :=
  | AnonymousUser
  | Authenticated (pk : Z) (row : User.t).

Definition user_pk (u : RequestUser) : option Z :=
  match u with
  | AnonymousUser => None
  | Authenticated pk _ => Some pk
  end.

Definition is_authenticated (u : RequestUser) : bool :=
  match u with
  | AnonymousUser => false
  | Authenticated _ _ => true
  end.

(** [str(request.user)], as [reverse] formats it into a path. *)
Definition user_str (u : RequestUser) : string :=
  match u with
  | AnonymousUser => "AnonymousUser"
  | Authenticated _ row => User.username row
  end.

Inductive Exception :=
  | Http404
  | MultipleObjectsReturned
  | IntegrityError
  | AttributeError.

Inductive Outcome (A : Type) :=
  | Return (a : A)
  | Raise (e : Exception).
Arguments Return {A} a.
Arguments Raise {A} e.

Global Instance Outcome_ret : MRet Outcome := λ A a, Return a.

Global Instance Outcome_bind : MBind Outcome := λ A B k m,
  match m with
  | Return a => k a
  | Raise e => Raise e
  end.

(** A queryset: rows with their primary keys, in result order. *)
Abbreviation QuerySet A := (list (Z * A)) (only parsing).

(** [Model.objects]: every row of the table. *)
Definition objects {A} (table : gmap Z A) : QuerySet A := map_to_list table.

(** [QuerySet.get()]: the single row of the queryset. *)
Definition queryset_get {A} (qs : QuerySet A) : Outcome (option (Z * A)) :=
  match qs with
  | [] => Return None
  | [r] => Return (Some r)
  | _ => Raise MultipleObjectsReturned
  end.

(** [get_object_or_404(qs)]: [DoesNotExist] becomes [Http404]. *)
Definition get_object_or_404 {A} (qs : QuerySet A) : Outcome (Z * A) :=
  r ← queryset_get qs;
  match r with
  | Some row => Return row
  | None => Raise Http404
  end.

(** [qs.filter(pk=i)] *)
Definition filter_pk {A} (i : Z) (qs : QuerySet A) : QuerySet A :=
  filter (λ r, r.1 = i) qs.

(** The join [category__is_published=True]: the post has a category, the
    category row exists and its flag is set.  A post whose [category] is
    null has no joined row and does not satisfy the lookup. *)
Definition category__is_published (db : DB) (p : Post.t) : bool :=
  match Post.category p with
  | Some c =>
      match categories db !! c with
      | Some cat => Category.is_published cat
      | None => false
      end
  | None => false
  end.

(** [order_by('-pub_date')] *)
Definition newer_first (a b : Z * Post.t) : Prop :=
  Post.pub_date b.2 ≤ Post.pub_date a.2.

Global Instance newer_first_dec : RelDecision newer_first :=
  λ a b, decide (Post.pub_date b.2 ≤ Post.pub_date a.2).

Definition order_by_pub_date_desc (qs : QuerySet Post.t) : QuerySet Post.t :=
  merge_sort newer_first qs.

(** ** blog/urls.py *)

(** A URL name of the [blog] namespace together with its keyword
    arguments, in the order of [profile_urls], [posts_urls] and
    [urlpatterns]. *)
Inductive UrlName :=
  | edit_profile
  | profile (username : string)
  | create_post
  | edit_post (post_id : Z)
  | delete_post (post_id : Z)
  | post_detail (post_id : Z)
  | add_comment (post_id : Z)
  | edit_comment (post_id comment_id : Z)
  | delete_comment (post_id comment_id : Z)
  | index
  | category_posts (category_slug : string).

(** [reverse('blog:<name>', kwargs=...)]: the path of the route. *)
Definition reverse (name : UrlName) : string :=
  match name with
  | edit_profile => "/profile/edit/"
  | profile username => "/profile/" +:+ username +:+ "/"
  | create_post => "/posts/create/"
  | edit_post post_id => "/posts/" +:+ pretty post_id +:+ "/edit/"
  | delete_post post_id => "/posts/" +:+ pretty post_id +:+ "/delete/"
  | post_detail post_id => "/posts/" +:+ pretty post_id +:+ "/"
  | add_comment post_id => "/posts/" +:+ pretty post_id +:+ "/comment/"
  | edit_comment post_id comment_id =>
      "/posts/" +:+ pretty post_id +:+ "/edit_comment/"
        +:+ pretty comment_id +:+ "/"
  | delete_comment post_id comment_id =>
      "/posts/" +:+ pretty post_id +:+ "/delete_comment/"
        +:+ pretty comment_id +:+ "/"
  | index => "/"
  | category_posts category_slug => "/category/" +:+ category_slug +:+ "/"
  end.

(** *** Resolving a path

    The request path is cut at its slashes and the routes are tried in the
    order they are listed; the first that matches decides. *)

Fixpoint split_path (path : string) : list string :=
  match path with
  | EmptyString => [""]
  | String c rest =>
      if decide (c = "/"%char) then "" :: split_path rest
      else match split_path rest with
           | seg :: segs => String c seg :: segs
           | [] => [String c ""]
           end
  end.

(** The converters [int] ([[0-9]+], read as a decimal number), [str]
    (any non-empty text without a slash) and [slug]
    ([[-a-zA-Z0-9_]+]). *)
Definition digit (c : ascii) : option Z :=
  let n := Z.of_N (Ascii.N_of_ascii c) in
  if decide (48 ≤ n ≤ 57) then Some (n - 48) else None.

Fixpoint int_go (acc : Z) (s : string) : option Z :=
  match s with
  | EmptyString => Some acc
  | String c rest =>
      match digit c with
      | Some d => int_go (10 * acc + d) rest
      | None => None
      end
  end.

Definition int_converter (s : string) : option Z :=
  match s with
  | EmptyString => None
  | _ => int_go 0 s
  end.

Definition str_converter (s : string) : option string :=
  match s with
  | EmptyString => None
  | _ => Some s
  end.

Definition slug_char (c : ascii) : bool :=
  let n := Z.of_N (Ascii.N_of_ascii c) in
  bool_decide (48 ≤ n ≤ 57) || bool_decide (65 ≤ n ≤ 90)
  || bool_decide (97 ≤ n ≤ 122) || bool_decide (n = 45)
  || bool_decide (n = 95).

Fixpoint all_slug_chars (s : string) : bool :=
  match s with
  | EmptyString => true
  | String c rest => slug_char c && all_slug_chars rest
  end.

Definition slug_converter (s : string) : option string :=
  match s with
  | EmptyString => None
  | _ => if all_slug_chars s then Some s else None
  end.

(** A route: what it makes of the segments that are left to match. *)
Definition Route := list string → option UrlName.

Fixpoint first_match (routes : list Route) (segs : list string)
  : option UrlName :=
  match routes with
  | [] => None
  | route :: routes =>
      match route segs with
      | Some name => Some name
      | None => first_match routes segs
      end
  end.

(** [path('<prefix>/', include(routes))] *)
Definition include (prefix : string) (routes : list Route) : Route :=
  λ segs,
    match segs with
    | seg :: rest =>
        if decide (seg = prefix) then first_match routes rest else None
    | [] => None
    end.

Definition profile_urls : list Route :=
  [ (λ segs, match segs with
             | [seg; ""] =>
                 if decide (seg = "edit") then Some edit_profile else None
             | _ => None
             end);
    (λ segs, match segs with
             | [username; ""] => profile <$> str_converter username
             | _ => None
             end) ].

Definition posts_urls : list Route :=
  [ (λ segs, match segs with
             | [seg; ""] =>
                 if decide (seg = "create") then Some create_post else None
             | _ => None
             end);
    (λ segs, match segs with
             | [post_id; seg; ""] =>
                 if decide (seg = "edit")
                 then edit_post <$> int_converter post_id else None
             | _ => None
             end);
    (λ segs, match segs with
             | [post_id; seg; ""] =>
                 if decide (seg = "delete")
                 then delete_post <$> int_converter post_id else None
             | _ => None
             end);
    (λ segs, match segs with
             | [post_id; ""] => post_detail <$> int_converter post_id
             | _ => None
             end);
    (λ segs, match segs with
             | [post_id; seg; ""] =>
                 if decide (seg = "comment")
                 then add_comment <$> int_converter post_id else None
             | _ => None
             end);
    (λ segs, match segs with
             | [post_id; seg; comment_id; ""] =>
                 if decide (seg = "edit_comment")
                 then post_id ← int_converter post_id;
                      edit_comment post_id <$> int_converter comment_id
                 else None
             | _ => None
             end);
    (λ segs, match segs with
             | [post_id; seg; comment_id; ""] =>
                 if decide (seg = "delete_comment")
                 then post_id ← int_converter post_id;
                      delete_comment post_id <$> int_converter comment_id
                 else None
             | _ => None
             end) ].

Definition urlpatterns : list Route :=
  [ (λ segs, match segs with
             | [""] => Some index
             | _ => None
             end);
    include "posts" posts_urls;
    (λ segs, match segs with
             | [seg; category_slug; ""] =>
                 if decide (seg = "category")
                 then category_posts <$> slug_converter category_slug
                 else None
             | _ => None
             end);
    include "profile" profile_urls ].

(** The route of a request path, which starts with a slash. *)
Definition resolve (path : string) : option UrlName :=
  match split_path path with
  | "" :: segs => first_match urlpatterns segs
  | _ => None
  end.

(** Keyword arguments that [reverse] accepts: numbers that are not
    negative, a user name that is not empty and has no slash, a slug of slug
    characters. *)
Fixpoint no_slash (s : string) : bool :=
  match s with
  | EmptyString => true
  | String c rest => bool_decide (c ≠ "/"%char) && no_slash rest
  end.

Definition valid_kwargs (name : UrlName) : Prop :=
  match name with
  | profile username => username ≠ "" ∧ no_slash username = true
  | category_posts category_slug =>
      category_slug ≠ "" ∧ all_slug_chars category_slug = true
  | edit_post post_id | delete_post post_id | post_detail post_id
  | add_comment post_id => 0 ≤ post_id
  | edit_comment post_id comment_id | delete_comment post_id comment_id =>
      0 ≤ post_id ∧ 0 ≤ comment_id
  | edit_profile | create_post | index => True
  end.

(** ** Responses *)

(** What a template is rendered with. *)
Inductive Context :=
  | ListContext (page_obj : list (Z * Post.t))
  | CategoryContext (page_obj : list (Z * Post.t)) (category : Z * Category.t)
  | ProfileContext (page_obj : list (Z * Post.t)) (profile : Z * User.t)
  | DetailContext (object : Z * Post.t) (comments : QuerySet Comment.t)
  | FormContext.

Inductive HttpResponse :=
  | TemplateResponse (template_name : string) (context : Context)
  | HttpResponseRedirect (url : string)
  | RedirectToLogin
  | HttpResponseNotFound
  | HttpResponseServerError.

(** The request handler around a view: an [Http404] raised by the view is the
    404 response, any other exception the 500 response; a request that
    raises leaves the database as it was. *)
Definition as_view (db : DB) (view : Outcome (DB * HttpResponse))
  : DB * HttpResponse :=
  match view with
  | Return r => r
  | Raise Http404 => (db, HttpResponseNotFound)
  | Raise _ => (db, HttpResponseServerError)
  end.

(** [LoginRequiredMixin.dispatch]: an anonymous request is redirected to the
    login page before the view runs. *)
Definition LoginRequiredMixin_dispatch (db : DB) (user : RequestUser)
    (view : Outcome (DB * HttpResponse)) : Outcome (DB * HttpResponse) :=
  if is_authenticated user then view else Return (db, RedirectToLogin).

(** A request to a form view: [GET] shows the form, [POST] submits data. *)
Inductive Request (D : Type) :=
  | GET
  | POST (data : D).
Arguments GET {D}.
Arguments POST {D} data.

(** ** blog/views.py: listings and detail *)

Definition PAGE_PAGINATOR : nat := 10.

(** Modelled from the spec: [PostListMixin] ([blog/mixins.py]) is not part of
    the sources.  Its queryset is the base collection of the Listing Query
    Builder: all posts, in reverse chronological order of [pub_date]; its
    pages hold [PAGE_PAGINATOR] items. *)
Definition PostListMixin_get_queryset (db : DB) : QuerySet Post.t :=
  order_by_pub_date_desc (objects (posts db)).

(** [Paginator.page(number)], pages counted from 1. *)
Definition Paginator_page {A} (qs : QuerySet A) (number : nat) : list (Z * A) :=
  take PAGE_PAGINATOR (drop (PAGE_PAGINATOR * (number - 1))%nat qs).

(** [IndexHome.get_queryset] *)
Definition IndexHome_get_queryset (db : DB) (now : Z) : QuerySet Post.t :=
  filter (λ r, Post.is_published r.2 = true
               ∧ Post.pub_date r.2 ≤ now
               ∧ category__is_published db r.2 = true)
         (PostListMixin_get_queryset db).

(** [PostDetailView.get_object] *)
Definition PostDetailView_get_object (db : DB) (now : Z) (user : RequestUser)
    (post_id : Z) : Outcome (Z * Post.t) :=
  let posts := objects (posts db) in
  object ← get_object_or_404 (filter_pk post_id posts);
  if decide (Some (Post.author object.2) ≠ user_pk user) then
    get_object_or_404
      (filter_pk post_id
         (filter (λ r, Post.pub_date r.2 ≤ now
                       ∧ category__is_published db r.2 = true
                       ∧ Post.is_published r.2 = true)
                 posts))
  else Return object.

(** [PostDetailView.get_context_data]: the comments of the post. *)
Definition PostDetailView_get_context_data (db : DB) (object : Z * Post.t)
  : Context :=
  DetailContext object
    (filter (λ r, Comment.post r.2 = object.1) (objects (comments db))).

Definition PostDetailView (db : DB) (now : Z) (user : RequestUser)
    (post_id : Z) : DB * HttpResponse :=
  as_view db (
    object ← PostDetailView_get_object db now user post_id;
    Return (db, TemplateResponse "blog/detail.html"
                  (PostDetailView_get_context_data db object))).

(** [CategoryListView.get_queryset]; the first component is
    [self.category]. *)
Definition CategoryListView_get_queryset (db : DB) (now : Z)
    (category_slug : string) : Outcome ((Z * Category.t) * QuerySet Post.t) :=
  category ← get_object_or_404
    (filter (λ r, Category.slug r.2 = category_slug
                  ∧ Category.is_published r.2 = true)
            (objects (categories db)));
  Return (category,
    filter (λ r, Post.is_published r.2 = true
                 ∧ Post.pub_date r.2 ≤ now
                 ∧ category__is_published db r.2 = true
                 ∧ Post.category r.2 = Some category.1)
           (PostListMixin_get_queryset db)).

(** [ProfileView.get_queryset]; the first component is [self.author]. *)
Definition ProfileView_get_queryset (db : DB) (user : RequestUser)
    (username : string) : Outcome ((Z * User.t) * QuerySet Post.t) :=
  author ← get_object_or_404
    (filter (λ r, User.username r.2 = username) (objects (users db)));
  if decide (Some author.1 ≠ user_pk user) then
    Return (author,
      filter (λ r, Post.is_published r.2 = true
                   ∧ category__is_published db r.2 = true
                   ∧ Post.author r.2 = author.1)
             (PostListMixin_get_queryset db))
  else
    Return (author,
      filter (λ r, Post.author r.2 = author.1)
             (PostListMixin_get_queryset db)).

(** The three listing views: the page [page] of the queryset. *)
Definition IndexHome (db : DB) (now : Z) (page : nat) : DB * HttpResponse :=
  (db, TemplateResponse "blog/index.html"
         (ListContext (Paginator_page (IndexHome_get_queryset db now) page))).

Definition CategoryListView (db : DB) (now : Z) (category_slug : string)
    (page : nat) : DB * HttpResponse :=
  as_view db (
    '(category, qs) ← CategoryListView_get_queryset db now category_slug;
    Return (db, TemplateResponse "blog/category.html"
                  (CategoryContext (Paginator_page qs page) category))).

Definition ProfileView (db : DB) (user : RequestUser) (username : string)
    (page : nat) : DB * HttpResponse :=
  as_view db (
    '(author, qs) ← ProfileView_get_queryset db user username;
    Return (db, TemplateResponse "blog/profile.html"
                  (ProfileContext (Paginator_page qs page) author))).

(** ** blog/forms.py *)

(** The field names of the models.  Modelled from the spec: the attributes
    of its data model, [blog/models.py] not being part of the sources. *)
Module PostField.
Inductive t :=
  title | text | pub_date | is_published | author | category | location.
Global Instance eq_dec : EqDecision t.
Proof. solve_decision. Defined.
End PostField.

Module CommentField.
Inductive t := post | author | text.
Global Instance eq_dec : EqDecision t.
Proof. solve_decision. Defined.
End CommentField.

Module UserField.
Inductive t := username | first_name | last_name | email.
Global Instance eq_dec : EqDecision t.
Proof. solve_decision. Defined.
End UserField.

Definition Post_fields : list PostField.t :=
  [PostField.title; PostField.text; PostField.pub_date;
   PostField.is_published; PostField.author; PostField.category;
   PostField.location].

(** The submitted data, one entry per key a client can send for the model;
    [None] is a key that is absent or empty.  A client is free to send
    [author] (and [post]) even though no form shows them. *)
Module PostData.
Record t := mk {
  title : option string;
  text : option string;
  pub_date : option Z;
  is_published : bool;
  author : option Z;
  category : option Z;
  location : option Z }.
End PostData.

Module CommentData.
Record t := mk {
  post : option Z;
  author : option Z;
  text : option string }.
End CommentData.

Module UserData.
Record t := mk {
  username : option string;
  first_name : option string;
  last_name : option string;
  email : option string }.
End UserData.

(** A model instance in memory: [pk] is unset until the first save, and the
    foreign keys a form leaves out are unset until the view assigns them. *)
Module PostInstance.
Record t := mk {
  pk : option Z;
  title : string;
  text : string;
  pub_date : Z;
  is_published : bool;
  author : option Z;
  category : option Z;
  location : option Z }.
End PostInstance.

Module CommentInstance.
Record t := mk {
  pk : option Z;
  post : option Z;
  author : option Z;
  text : string }.
End CommentInstance.

(** [Post()] and [Comment()] *)
Definition Post_new : PostInstance.t :=
  PostInstance.mk None "" "" 0 true None None None.

Definition Comment_new : CommentInstance.t :=
  CommentInstance.mk None None None "".

(** The instance of a stored row. *)
Definition Post_instance (r : Z * Post.t) : PostInstance.t :=
  PostInstance.mk (Some r.1) (Post.title r.2) (Post.text r.2)
    (Post.pub_date r.2) (Post.is_published r.2) (Some (Post.author r.2))
    (Post.category r.2) (Post.location r.2).

Definition Comment_instance (r : Z * Comment.t) : CommentInstance.t :=
  CommentInstance.mk (Some r.1) (Some (Comment.post r.2))
    (Some (Comment.author r.2)) (Comment.text r.2).

Definition nonempty (s : option string) : bool :=
  match s with
  | Some s => bool_decide (s ≠ "")
  | None => false
  end.

Definition refers_to {A} (table : gmap Z A) (fk : option Z) : bool :=
  match fk with
  | Some i => bool_decide (is_Some (table !! i))
  | None => false
  end.

(** [PostForm]: [exclude = ('author',)] *)
Definition PostForm_exclude : list PostField.t := [PostField.author].

Definition PostForm_fields : list PostField.t :=
  filter (λ f, f ∉ PostForm_exclude) Post_fields.

(** Validation of one field of a post form: the texts and the date are
    required, the optional foreign keys refer to a stored row when given. *)
Definition PostForm_field_valid (db : DB) (data : PostData.t)
    (f : PostField.t) : bool :=
  match f with
  | PostField.title => nonempty (PostData.title data)
  | PostField.text => nonempty (PostData.text data)
  | PostField.pub_date => bool_decide (is_Some (PostData.pub_date data))
  | PostField.is_published => true
  | PostField.author => refers_to (users db) (PostData.author data)
  | PostField.category =>
      match PostData.category data with
      | Some _ => refers_to (categories db) (PostData.category data)
      | None => true
      end
  | PostField.location =>
      match PostData.location data with
      | Some _ => refers_to (locations db) (PostData.location data)
      | None => true
      end
  end.

(** [form.is_valid()]: every field of the form validates. *)
Definition PostForm_is_valid (db : DB) (data : PostData.t) : bool :=
  forallb (PostForm_field_valid db data) PostForm_fields.

(** [construct_instance]: the fields of the form, and only those, are
    copied from the data onto the instance. *)
Definition PostForm_construct_instance (fields : list PostField.t)
    (data : PostData.t) (instance : PostInstance.t) : PostInstance.t :=
  let pick {A} (f : PostField.t) (new old : A) : A :=
    if bool_decide (f ∈ fields) then new else old in
  PostInstance.mk
    (PostInstance.pk instance)
    (pick PostField.title (default "" (PostData.title data))
       (PostInstance.title instance))
    (pick PostField.text (default "" (PostData.text data))
       (PostInstance.text instance))
    (pick PostField.pub_date (default 0 (PostData.pub_date data))
       (PostInstance.pub_date instance))
    (pick PostField.is_published (PostData.is_published data)
       (PostInstance.is_published instance))
    (pick PostField.author (PostData.author data)
       (PostInstance.author instance))
    (pick PostField.category (PostData.category data)
       (PostInstance.category instance))
    (pick PostField.location (PostData.location data)
       (PostInstance.location instance)).

(** [CommentForm]: [fields = ('text',)] *)
Definition CommentForm_fields : list CommentField.t := [CommentField.text].

Definition CommentForm_field_valid (db : DB) (data : CommentData.t)
    (f : CommentField.t) : bool :=
  match f with
  | CommentField.post => refers_to (posts db) (CommentData.post data)
  | CommentField.author => refers_to (users db) (CommentData.author data)
  | CommentField.text => nonempty (CommentData.text data)
  end.

Definition CommentForm_is_valid (db : DB) (data : CommentData.t) : bool :=
  forallb (CommentForm_field_valid db data) CommentForm_fields.

Definition CommentForm_construct_instance (fields : list CommentField.t)
    (data : CommentData.t) (instance : CommentInstance.t) : CommentInstance.t :=
  let pick {A} (f : CommentField.t) (new old : A) : A :=
    if bool_decide (f ∈ fields) then new else old in
  CommentInstance.mk
    (CommentInstance.pk instance)
    (pick CommentField.post (CommentData.post data)
       (CommentInstance.post instance))
    (pick CommentField.author (CommentData.author data)
       (CommentInstance.author instance))
    (pick CommentField.text (default "" (CommentData.text data))
       (CommentInstance.text instance)).

(** [UserForm]: [fields = ('username', 'first_name', 'last_name', 'email',)] *)
Definition UserForm_fields : list UserField.t :=
  [UserField.username; UserField.first_name; UserField.last_name;
   UserField.email].

(** The user name is required and, the column being unique, not the name of
    another user; the other three fields may be blank. *)
Definition UserForm_field_valid (db : DB) (pk : Z) (data : UserData.t)
    (f : UserField.t) : bool :=
  match f with
  | UserField.username =>
      nonempty (UserData.username data)
      && bool_decide (Forall
           (λ r, r.1 ≠ pk → Some (User.username r.2) ≠ UserData.username data)
           (objects (users db)))
  | _ => true
  end.

Definition UserForm_is_valid (db : DB) (pk : Z) (data : UserData.t) : bool :=
  forallb (UserForm_field_valid db pk data) UserForm_fields.

Definition UserForm_construct_instance (fields : list UserField.t)
    (data : UserData.t) (instance : User.t) : User.t :=
  let pick (f : UserField.t) (new : option string) (old : string) : string :=
    if bool_decide (f ∈ fields) then default "" new else old in
  User.mk
    (pick UserField.username (UserData.username data) (User.username instance))
    (pick UserField.first_name (UserData.first_name data)
       (User.first_name instance))
    (pick UserField.last_name (UserData.last_name data)
       (User.last_name instance))
    (pick UserField.email (UserData.email data) (User.email instance)).

(** ** Saving and deleting *)

Definition set_users (db : DB) (t : gmap Z User.t) : DB :=
  mkDB t (categories db) (locations db) (posts db) (comments db).

Definition set_posts (db : DB) (t : gmap Z Post.t) : DB :=
  mkDB (users db) (categories db) (locations db) t (comments db).

Definition set_comments (db : DB) (t : gmap Z Comment.t) : DB :=
  mkDB (users db) (categories db) (locations db) (posts db) t.

(** The primary key of the next inserted row: one past the largest in use. *)
Definition next_pk {A} (table : gmap Z A) : Z :=
  1 + foldr Z.max 0 (map_to_list table).*1.

(** The row an instance is stored as, given the values of its foreign keys
    that are not nullable. *)
Definition Post_row (instance : PostInstance.t) (author : Z) : Post.t :=
  Post.mk (PostInstance.title instance) (PostInstance.text instance)
    (PostInstance.pub_date instance) (PostInstance.is_published instance)
    author (PostInstance.category instance) (PostInstance.location instance).

Definition Comment_row (instance : CommentInstance.t) (post author : Z)
  : Comment.t :=
  Comment.mk post author (CommentInstance.text instance).

(** [instance.save()]: an instance without a primary key is inserted under a
    new one, an instance with one replaces its row.  The author (and the
    post of a comment) are not nullable. *)
Definition Post_save (db : DB) (instance : PostInstance.t) : Outcome (DB * Z) :=
  match PostInstance.author instance with
  | None => Raise IntegrityError
  | Some a =>
      let pk := default (next_pk (posts db)) (PostInstance.pk instance) in
      Return (set_posts db (<[pk := Post_row instance a]> (posts db)), pk)
  end.

Definition Comment_save (db : DB) (instance : CommentInstance.t)
  : Outcome (DB * Z) :=
  match CommentInstance.post instance, CommentInstance.author instance with
  | Some p, Some a =>
      let pk := default (next_pk (comments db)) (CommentInstance.pk instance) in
      Return (set_comments db (<[pk := Comment_row instance p a]> (comments db)),
              pk)
  | _, _ => Raise IntegrityError
  end.

Definition User_save (db : DB) (pk : Z) (row : User.t) : DB :=
  set_users db (<[pk := row]> (users db)).

(** [post.delete()] removes the row and, with it, the comments of the post;
    [comment.delete()] removes the row. *)
Definition Post_delete (db : DB) (pk : Z) : DB :=
  mkDB (users db) (categories db) (locations db) (delete pk (posts db))
       (filter (λ r, Comment.post r.2 ≠ pk) (comments db)).

Definition Comment_delete (db : DB) (pk : Z) : DB :=
  set_comments db (delete pk (comments db)).

(** ** blog/views.py: create, update and delete *)

Definition Post_set_author (instance : PostInstance.t) (a : option Z)
  : PostInstance.t :=
  PostInstance.mk (PostInstance.pk instance) (PostInstance.title instance)
    (PostInstance.text instance) (PostInstance.pub_date instance)
    (PostInstance.is_published instance) a (PostInstance.category instance)
    (PostInstance.location instance).

Definition Comment_set_author (instance : CommentInstance.t) (a : option Z)
  : CommentInstance.t :=
  CommentInstance.mk (CommentInstance.pk instance)
    (CommentInstance.post instance) a (CommentInstance.text instance).

Definition Comment_set_post (instance : CommentInstance.t) (p : option Z)
  : CommentInstance.t :=
  CommentInstance.mk (CommentInstance.pk instance) p
    (CommentInstance.author instance) (CommentInstance.text instance).

(** [ProfileUpdateView.get_object] *)
Definition ProfileUpdateView_get_object (user : RequestUser) : RequestUser :=
  user.

(** [ProfileUpdateView.get_success_url] *)
Definition ProfileUpdateView_get_success_url (user : RequestUser) : string :=
  reverse (profile (user_str user)).

(** [ProfileUpdateView]: the form is bound to the object [get_object]
    returns, which is [request.user] itself, so the success URL is formatted
    with the user as the form has just changed it. *)
Definition ProfileUpdateView (db : DB) (user : RequestUser)
    (request : Request UserData.t) : DB * HttpResponse :=
  as_view db (LoginRequiredMixin_dispatch db user (
    match ProfileUpdateView_get_object user, request with
    | AnonymousUser, _ => Raise AttributeError
    | Authenticated _ _, GET =>
        Return (db, TemplateResponse "blog/user.html" FormContext)
    | Authenticated pk row, POST data =>
        if UserForm_is_valid db pk data then
          let row := UserForm_construct_instance UserForm_fields data row in
          Return (User_save db pk row,
                  HttpResponseRedirect
                    (ProfileUpdateView_get_success_url (Authenticated pk row)))
        else Return (db, TemplateResponse "blog/user.html" FormContext)
    end)).

(** [CreatePostView.form_valid] *)
Definition CreatePostView_form_valid (db : DB) (user : RequestUser)
    (instance : PostInstance.t) : Outcome (DB * Z) :=
  let instance := Post_set_author instance (user_pk user) in
  Post_save db instance.

(** [CreatePostView.get_success_url] *)
Definition CreatePostView_get_success_url (user : RequestUser) : string :=
  reverse (profile (user_str user)).

Definition CreatePostView (db : DB) (user : RequestUser)
    (request : Request PostData.t) : DB * HttpResponse :=
  as_view db (LoginRequiredMixin_dispatch db user (
    match request with
    | GET => Return (db, TemplateResponse "blog/create.html" FormContext)
    | POST data =>
        if PostForm_is_valid db data then
          saved ← CreatePostView_form_valid db user
                    (PostForm_construct_instance PostForm_fields data Post_new);
          Return (saved.1,
                  HttpResponseRedirect (CreatePostView_get_success_url user))
        else Return (db, TemplateResponse "blog/create.html" FormContext)
    end)).

(** [PostUpdateView.get_success_url] *)
Definition PostUpdateView_get_success_url (post_id : Z) : string :=
  reverse (post_detail post_id).

(** [PostDeleteView.get_success_url] *)
Definition PostDeleteView_get_success_url (user : RequestUser) : string :=
  reverse (profile (user_str user)).

(** [CommentCreateView.form_valid] *)
Definition CommentCreateView_form_valid (db : DB) (user : RequestUser)
    (post_id : Z) (instance : CommentInstance.t) : Outcome (DB * Z) :=
  let instance := Comment_set_author instance (user_pk user) in
  post ← get_object_or_404 (filter_pk post_id (objects (posts db)));
  let instance := Comment_set_post instance (Some post.1) in
  Comment_save db instance.

(** [CommentCreateView.get_success_url] *)
Definition CommentCreateView_get_success_url (post_id : Z) : string :=
  reverse (post_detail post_id).

Definition CommentCreateView (db : DB) (user : RequestUser) (post_id : Z)
    (request : Request CommentData.t) : DB * HttpResponse :=
  as_view db (LoginRequiredMixin_dispatch db user (
    match request with
    | GET => Return (db, TemplateResponse "blog/comment_form.html" FormContext)
    | POST data =>
        if CommentForm_is_valid db data then
          saved ← CommentCreateView_form_valid db user post_id
                    (CommentForm_construct_instance CommentForm_fields data
                       Comment_new);
          Return (saved.1,
                  HttpResponseRedirect
                    (CommentCreateView_get_success_url post_id))
        else
          Return (db, TemplateResponse "blog/comment_form.html" FormContext)
    end)).

(** How a request of somebody who is not the author is turned down. *)
Inductive Rejection :=
  | RedirectToDetail
  | NotFound.

Definition rejected (db : DB) (how : Rejection) (post_id : Z)
  : Outcome (DB * HttpResponse) :=
  match how with
  | RedirectToDetail =>
      Return (db, HttpResponseRedirect (reverse (post_detail post_id)))
  | NotFound => Raise Http404
  end.

Section Mixins.

(** The specification leaves open which of the two item types is turned
    down by a redirect and which by a 404. *)
Variables post_rejection comment_rejection : Rejection.

(** Modelled from the spec: [ChangePostMixin] ([blog/mixins.py]) is not
    part of the sources.  It fetches the post of [post_id] (404 when there
    is none) and lets the view run only when [may_mutate] holds, that is
    when the viewer is the author of the post; any other viewer is
    rejected. *)
Definition ChangePostMixin_dispatch (db : DB) (user : RequestUser)
    (post_id : Z) (view : Z * Post.t → Outcome (DB * HttpResponse))
  : Outcome (DB * HttpResponse) :=
  object ← get_object_or_404 (filter_pk post_id (objects (posts db)));
  if decide (Some (Post.author object.2) ≠ user_pk user) then
    rejected db post_rejection object.1
  else view object.

(** Modelled from the spec: [CommentChangeMixin] ([blog/mixins.py]) is not
    part of the sources.  It fetches the comment of [comment_id] (404 when
    there is none), lets the view run only when the viewer is the author
    of the comment, and on success redirects to the detail page of the
    post of the comment. *)
Definition CommentChangeMixin_dispatch (db : DB) (user : RequestUser)
    (comment_id : Z) (view : Z * Comment.t → Outcome (DB * HttpResponse))
  : Outcome (DB * HttpResponse) :=
  object ← get_object_or_404 (filter_pk comment_id (objects (comments db)));
  if decide (Some (Comment.author object.2) ≠ user_pk user) then
    rejected db comment_rejection (Comment.post object.2)
  else view object.

Definition CommentChangeMixin_get_success_url (object : Z * Comment.t)
  : string :=
  reverse (post_detail (Comment.post object.2)).

Definition PostUpdateView (db : DB) (user : RequestUser) (post_id : Z)
    (request : Request PostData.t) : DB * HttpResponse :=
  as_view db (LoginRequiredMixin_dispatch db user (
    ChangePostMixin_dispatch db user post_id (λ object,
      match request with
      | GET => Return (db, TemplateResponse "blog/create.html" FormContext)
      | POST data =>
          if PostForm_is_valid db data then
            saved ← Post_save db
                      (PostForm_construct_instance PostForm_fields data
                         (Post_instance object));
            Return (saved.1,
                    HttpResponseRedirect
                      (PostUpdateView_get_success_url post_id))
          else
            Return (db, TemplateResponse "blog/create.html" FormContext)
      end))).

Definition PostDeleteView (db : DB) (user : RequestUser) (post_id : Z)
    (request : Request unit) : DB * HttpResponse :=
  as_view db (LoginRequiredMixin_dispatch db user (
    ChangePostMixin_dispatch db user post_id (λ object,
      match request with
      | GET => Return (db, TemplateResponse "blog/create.html" FormContext)
      | POST _ =>
          Return (Post_delete db object.1,
                  HttpResponseRedirect (PostDeleteView_get_success_url user))
      end))).

Definition CommentUpdateView (db : DB) (user : RequestUser)
    (comment_id : Z) (request : Request CommentData.t)
  : DB * HttpResponse :=
  as_view db (LoginRequiredMixin_dispatch db user (
    CommentChangeMixin_dispatch db user comment_id (λ object,
      match request with
      | GET => Return (db, TemplateResponse "blog/comment.html" FormContext)
      | POST data =>
          if CommentForm_is_valid db data then
            saved ← Comment_save db
                      (CommentForm_construct_instance CommentForm_fields
                         data (Comment_instance object));
            Return (saved.1,
                    HttpResponseRedirect
                      (CommentChangeMixin_get_success_url object))
          else
            Return (db, TemplateResponse "blog/comment.html" FormContext)
      end))).

Definition CommentDeleteView (db : DB) (user : RequestUser)
    (comment_id : Z) (request : Request unit) : DB * HttpResponse :=
  as_view db (LoginRequiredMixin_dispatch db user (
    CommentChangeMixin_dispatch db user comment_id (λ object,
      match request with
      | GET => Return (db, TemplateResponse "blog/comment.html" FormContext)
      | POST _ =>
          Return (Comment_delete db object.1,
                  HttpResponseRedirect
                    (CommentChangeMixin_get_success_url object))
      end))).

End Mixins.

(** ** Constraints of the store *)

(** [username] and [slug] are unique columns. *)
Definition unique_usernames (db : DB) : Prop :=
  NoDup ((λ r, User.username r.2) <$> objects (users db)).

Definition unique_slugs (db : DB) : Prop :=
  NoDup ((λ r, Category.slug r.2) <$> objects (categories db)).

(** The post of every comment is a stored post. *)
Definition comments_have_posts (db : DB) : Prop :=
  ∀ c cm, comments db !! c = Some cm → is_Some (posts db !! Comment.post cm).

(** ** The Visibility Policy in the words of the specification *)

(** Section 4.1, the branch for a viewer who is not the author: published,
    not dated in the future, and in a published category, "category check
    skipped if no category". *)
Definition spec_non_owner_visible (db : DB) (now : Z) (p : Post.t) : bool :=
  Post.is_published p
  && bool_decide (Post.pub_date p ≤ now)
  && match Post.category p with
     | Some c =>
         match categories db !! c with
         | Some cat => Category.is_published cat
         | None => false
         end
     | None => true
     end.

(** Two submissions that differ in nothing but the [author] key. *)
Definition PostData_set_author (data : PostData.t) (a : option Z)
  : PostData.t :=
  PostData.mk (PostData.title data) (PostData.text data)
    (PostData.pub_date data) (PostData.is_published data) a
    (PostData.category data) (PostData.location data).

Definition CommentData_set_author (data : CommentData.t) (a : option Z)
  : CommentData.t :=
  CommentData.mk (CommentData.post data) a (CommentData.text data).

(** Two submissions that differ in nothing but the [post] key. *)
Definition CommentData_set_post (data : CommentData.t) (p : option Z)
  : CommentData.t :=
  CommentData.mk p (CommentData.author data) (CommentData.text data).

(** ** A small store to evaluate the views on *)

Module Sample.

Definition alice : User.t := User.mk "alice" "Alice" "A" "alice@example.org".
Definition bob : User.t := User.mk "bob" "Bob" "B" "bob@example.org".

Definition news : Category.t := Category.mk "news" true.
Definition drafts : Category.t := Category.mk "drafts" false.

(** Requests are made at time 10. *)
Definition now : Z := 10.

Definition live_post : Post.t :=
  Post.mk "live" "text" 5 true 1 (Some 1) None.
Definition future_post : Post.t :=
  Post.mk "scheduled" "text" 50 true 1 (Some 1) None.
Definition uncategorised_post : Post.t :=
  Post.mk "loose" "text" 7 true 1 None None.
Definition shelved_post : Post.t :=
  Post.mk "shelved" "text" 3 true 2 (Some 2) None.
Definition draft_post : Post.t :=
  Post.mk "draft" "text" 4 false 2 (Some 1) None.

Definition db : DB :=
  mkDB (<[1 := alice]> (<[2 := bob]> ∅))
       (<[1 := news]> (<[2 := drafts]> ∅))
       ∅
       (<[1 := live_post]> (<[2 := future_post]>
         (<[3 := uncategorised_post]> (<[4 := shelved_post]>
           (<[5 := draft_post]> ∅)))))
       (<[1 := Comment.mk 1 2 "first"]> ∅).

Definition as_alice : RequestUser := Authenticated 1 alice.
Definition as_bob : RequestUser := Authenticated 2 bob.

Definition post_data : PostData.t :=
  PostData.mk (Some "edited") (Some "body") (Some 6) true (Some 2)
    (Some 1) None.

Definition comment_data : CommentData.t :=
  CommentData.mk (Some 1) (Some 1) (Some "hello").

Definition user_data : UserData.t :=
  UserData.mk (Some "bobby") (Some "Robert") None (Some "bobby@example.org").

End Sample.

(** * Properties *)

(** ** Querysets *)

Section queryset.
Context {A : Type}.
Implicit Types (qs : QuerySet A) (r : Z * A) (table : gmap Z A).

Lemma elem_of_objects table i x :
  (i, x) ∈ objects table ↔ table !! i = Some x.
Proof. apply elem_of_map_to_list. Qed.

Lemma NoDup_objects_pk table : NoDup (objects table).*1.
Proof. apply NoDup_fst_map_to_list. Qed.

Lemma filter_nil_no_match (P : Z * A → Prop) `{!∀ r, Decision (P r)} qs :
  (∀ r, r ∈ qs → ¬ P r) → filter P qs = [].
Proof.
  induction qs as [|r qs IH]; intros Hno; [done|].
  rewrite filter_cons_False; [|apply Hno; left].
  apply IH. intros r' Hin. apply Hno. by right.
Qed.

Lemma filter_swap (P Q : Z * A → Prop) `{!∀ r, Decision (P r)}
    `{!∀ r, Decision (Q r)} qs :
  filter P (filter Q qs) = filter Q (filter P qs).
Proof.
  induction qs as [|r qs IH]; [done|].
  destruct (decide (P r)), (decide (Q r));
    repeat (first [ rewrite (filter_cons_True P) by done
                  | rewrite (filter_cons_True Q) by done
                  | rewrite (filter_cons_False P) by done
                  | rewrite (filter_cons_False Q) by done ]);
    by rewrite IH.
Qed.

(** A key that is unique in the queryset selects exactly its row. *)
Lemma filter_unique_key {B} (key : Z * A → B) `{!EqDecision B} qs r :
  NoDup (key <$> qs) → r ∈ qs →
  filter (λ r', key r' = key r) qs = [r].
Proof.
  induction qs as [|r0 qs IH]; intros Hnd Hin; [by apply elem_of_nil in Hin|].
  rewrite fmap_cons in Hnd. apply NoDup_cons in Hnd as [Hfresh Hnd].
  apply elem_of_cons in Hin as [->|Hin].
  - rewrite filter_cons_True; [|done]. f_equal.
    apply filter_nil_no_match. intros r' Hr' Heq.
    apply Hfresh. rewrite <- Heq. by apply list_elem_of_fmap_2.
  - rewrite filter_cons_False; [by apply IH|].
    intros Heq. apply Hfresh. rewrite Heq. by apply list_elem_of_fmap_2.
Qed.

Lemma filter_pk_objects table i :
  filter_pk i (objects table)
  = match table !! i with Some x => [(i, x)] | None => [] end.
Proof.
  unfold filter_pk. destruct (table !! i) as [x|] eqn:Hi.
  - apply elem_of_objects in Hi.
    apply (filter_unique_key fst _ (i, x)); [apply NoDup_objects_pk|done].
  - apply filter_nil_no_match. intros [j y] Hin Hj. simpl in Hj. subst j.
    apply elem_of_objects in Hin. congruence.
Qed.

(** Looking a primary key up in a filtered table. *)
Lemma filter_pk_filter_objects (P : Z * A → Prop) `{!∀ r, Decision (P r)}
    table i :
  filter_pk i (filter P (objects table))
  = match table !! i with
    | Some x => if decide (P (i, x)) then [(i, x)] else []
    | None => []
    end.
Proof.
  unfold filter_pk. rewrite filter_swap.
  fold (filter_pk i (objects table)). rewrite filter_pk_objects.
  destruct (table !! i) as [x|]; [|done].
  destruct (decide (P (i, x))).
  - by rewrite filter_cons_True.
  - by rewrite filter_cons_False.
Qed.

Lemma get_object_or_404_pk table i :
  get_object_or_404 (filter_pk i (objects table))
  = match table !! i with Some x => Return (i, x) | None => Raise Http404 end.
Proof. rewrite filter_pk_objects. by destruct (table !! i). Qed.

End queryset.

(** ** Listings *)

Lemma elem_of_PostListMixin_get_queryset db i p :
  (i, p) ∈ PostListMixin_get_queryset db ↔ posts db !! i = Some p.
Proof.
  unfold PostListMixin_get_queryset, order_by_pub_date_desc.
  rewrite merge_sort_Permutation. apply elem_of_objects.
Qed.

Lemma category__is_published_true db p :
  category__is_published db p = true ↔
  ∃ c cat, Post.category p = Some c ∧ categories db !! c = Some cat
           ∧ Category.is_published cat = true.
Proof.
  unfold category__is_published. split.
  - destruct (Post.category p) as [c|]; [|done].
    destruct (categories db !! c) as [cat|] eqn:Hc; [|done]. eauto.
  - intros (c & cat & -> & -> & ?). done.
Qed.

Lemma elem_of_IndexHome_get_queryset db now i p :
  (i, p) ∈ IndexHome_get_queryset db now ↔
  posts db !! i = Some p
  ∧ Post.is_published p = true
  ∧ Post.pub_date p ≤ now
  ∧ category__is_published db p = true.
Proof.
  unfold IndexHome_get_queryset.
  rewrite list_elem_of_filter, elem_of_PostListMixin_get_queryset. simpl.
  tauto.
Qed.

(** Every row of a queryset is on one of its pages. *)
Lemma elem_of_Paginator_page {A} (qs : QuerySet A) r :
  r ∈ qs → ∃ number, (1 ≤ number)%nat ∧ r ∈ Paginator_page qs number.
Proof.
  intros [k Hk]%list_elem_of_lookup_1.
  exists (S (k / PAGE_PAGINATOR)). split; [lia|].
  apply list_elem_of_lookup. exists (k `mod` PAGE_PAGINATOR)%nat.
  unfold Paginator_page.
  assert (k `mod` PAGE_PAGINATOR < PAGE_PAGINATOR)%nat
    by (apply Nat.mod_upper_bound; unfold PAGE_PAGINATOR; lia).
  rewrite lookup_take_lt by done. rewrite lookup_drop.
  replace (S (k / PAGE_PAGINATOR) - 1)%nat with (k / PAGE_PAGINATOR)%nat by lia.
  by rewrite <- Nat.div_mod_eq.
Qed.

(** The user and the category a name selects, the names being unique. *)
Lemma get_user_by_username db a row :
  unique_usernames db → users db !! a = Some row →
  get_object_or_404
    (filter (λ r, User.username r.2 = User.username row) (objects (users db)))
  = Return (a, row).
Proof.
  intros Huniq Ha. apply elem_of_objects in Ha.
  by rewrite (filter_unique_key (λ r, User.username r.2) _ (a, row)).
Qed.

Lemma filter_conj {A} (P Q : A → Prop) `{!∀ x, Decision (P x)}
    `{!∀ x, Decision (Q x)} (l : list A) :
  filter (λ x, P x ∧ Q x) l = filter Q (filter P l).
Proof.
  rewrite list_filter_filter. induction l as [|x l IH]; [done|].
  destruct (decide (P x)), (decide (Q x));
    [ rewrite !filter_cons_True by done
    | rewrite !filter_cons_False by tauto
    | rewrite !filter_cons_False by tauto
    | rewrite !filter_cons_False by tauto ];
    by rewrite IH.
Qed.

Lemma get_category_by_slug db c cat :
  unique_slugs db → categories db !! c = Some cat →
  get_object_or_404
    (filter (λ r, Category.slug r.2 = Category.slug cat
                  ∧ Category.is_published r.2 = true)
            (objects (categories db)))
  = if Category.is_published cat then Return (c, cat) else Raise Http404.
Proof.
  intros Huniq Hc. apply elem_of_objects in Hc.
  rewrite filter_conj.
  rewrite (filter_unique_key (λ r, Category.slug r.2) _ (c, cat)) by done.
  destruct (Category.is_published cat) eqn:Hpub.
  - by rewrite filter_cons_True.
  - rewrite filter_cons_False; [done|]. simpl. congruence.
Qed.

Lemma ProfileView_get_queryset_visitor db user a row :
  unique_usernames db → users db !! a = Some row → user_pk user ≠ Some a →
  ProfileView_get_queryset db user (User.username row)
  = Return ((a, row),
      filter (λ r, Post.is_published r.2 = true
                   ∧ category__is_published db r.2 = true
                   ∧ Post.author r.2 = a)
             (PostListMixin_get_queryset db)).
Proof.
  intros Huniq Ha Hne. unfold ProfileView_get_queryset.
  rewrite (get_user_by_username db a row) by done. simpl.
  destruct (decide (Some a ≠ user_pk user)) as [|Hsame]; [done|].
  destruct Hsame. congruence.
Qed.

Lemma ProfileView_get_queryset_owner db user a row :
  unique_usernames db → users db !! a = Some row → user_pk user = Some a →
  ProfileView_get_queryset db user (User.username row)
  = Return ((a, row),
      filter (λ r, Post.author r.2 = a) (PostListMixin_get_queryset db)).
Proof.
  intros Huniq Ha Heq. unfold ProfileView_get_queryset.
  rewrite (get_user_by_username db a row) by done. simpl.
  destruct (decide (Some a ≠ user_pk user)); [congruence|done].
Qed.

(** Whoever asks, a post of the listing the profile view builds is a stored
    post of the profile's user; for a visitor it is also published and in a
    published category. *)
Lemma elem_of_ProfileView_get_queryset db user username author qs i p :
  ProfileView_get_queryset db user username = Return (author, qs) →
  (i, p) ∈ qs →
  posts db !! i = Some p ∧ Post.author p = author.1
  ∧ (Some author.1 ≠ user_pk user →
     Post.is_published p = true ∧ category__is_published db p = true).
Proof.
  unfold ProfileView_get_queryset.
  destruct (get_object_or_404 _) as [found|]; simpl; [|done].
  destruct (decide (Some found.1 ≠ user_pk user)); intros [= <- <-];
    rewrite list_elem_of_filter, elem_of_PostListMixin_get_queryset; simpl;
    tauto.
Qed.

Lemma elem_of_CategoryListView_get_queryset db now slug category qs i p :
  CategoryListView_get_queryset db now slug = Return (category, qs) →
  (i, p) ∈ qs →
  posts db !! i = Some p
  ∧ Post.is_published p = true ∧ Post.pub_date p ≤ now
  ∧ category__is_published db p = true
  ∧ Post.category p = Some category.1.
Proof.
  unfold CategoryListView_get_queryset.
  destruct (get_object_or_404 _) as [found|]; simpl; [|done].
  intros [= <- <-].
  rewrite list_elem_of_filter, elem_of_PostListMixin_get_queryset; simpl.
  tauto.
Qed.

(** ** Detail *)

Lemma PostDetailView_get_object_eq db now user post_id :
  PostDetailView_get_object db now user post_id
  = match posts db !! post_id with
    | None => Raise Http404
    | Some p =>
        if decide (Some (Post.author p) ≠ user_pk user) then
          if decide (Post.pub_date p ≤ now
                     ∧ category__is_published db p = true
                     ∧ Post.is_published p = true)
          then Return (post_id, p) else Raise Http404
        else Return (post_id, p)
    end.
Proof.
  unfold PostDetailView_get_object. cbv zeta.
  rewrite get_object_or_404_pk.
  destruct (posts db !! post_id) as [p|] eqn:Hp; simpl; [|done].
  destruct (decide (Some (Post.author p) ≠ user_pk user)); [|done].
  rewrite (filter_pk_filter_objects
             (λ r, Post.pub_date r.2 ≤ now
                   ∧ category__is_published db r.2 = true
                   ∧ Post.is_published r.2 = true)).
  rewrite Hp. simpl. by destruct (decide _).
Qed.

Lemma spec_hidden_is_filtered db now p :
  spec_non_owner_visible db now p = false →
  ¬ (Post.pub_date p ≤ now
     ∧ category__is_published db p = true
     ∧ Post.is_published p = true).
Proof.
  unfold spec_non_owner_visible, category__is_published.
  intros Hspec (Hdate & Hcat & Hpub). rewrite Hpub in Hspec.
  rewrite bool_decide_eq_true_2 in Hspec by done.
  destruct (Post.category p) as [c|]; [|done].
  destruct (categories db !! c); simpl in *; congruence.
Qed.

(** * The claims *)

(** C1 (as amended).  A post is on the home listing exactly when it is a
    stored post that is published, is not dated after the time of the
    request, and has a category that is published; the viewer plays no part,
    and a post without a category is never listed. *)
Theorem IndexHome_lists_live_categorised_posts db now i p :
  (i, p) ∈ IndexHome_get_queryset db now ↔
  posts db !! i = Some p
  ∧ Post.is_published p = true
  ∧ Post.pub_date p ≤ now
  ∧ ∃ c cat, Post.category p = Some c ∧ categories db !! c = Some cat
             ∧ Category.is_published cat = true.
Proof.
  rewrite elem_of_IndexHome_get_queryset, category__is_published_true. done.
Qed.

(** C1 as it is stated fails: the policy of the specification lets a post
    without a category through, the home listing does not show it. *)
Lemma IndexHome_omits_post_without_category :
  ¬ (∀ db now user i p,
       posts db !! i = Some p → user_pk user ≠ Some (Post.author p) →
       ((i, p) ∈ IndexHome_get_queryset db now
        ↔ spec_non_owner_visible db now p = true)).
Proof.
  intros Hclaim.
  destruct (Hclaim Sample.db Sample.now AnonymousUser 3
              Sample.uncategorised_post) as [_ Hlisted]; [done..|].
  apply elem_of_IndexHome_get_queryset in Hlisted as (_ & _ & _ & Hcat);
    [|done].
  vm_compute in Hcat. discriminate.
Qed.

(** C2, at the failing input: bob, who is not alice, asks for the profile of
    alice at time 10; her post dated 50 is in the listing he gets, although
    the home listing of the same moment leaves it out. *)
Theorem ProfileView_lists_future_post_to_visitor :
  Sample.now < Post.pub_date Sample.future_post
  ∧ user_pk Sample.as_bob ≠ Some (Post.author Sample.future_post)
  ∧ (∃ qs, ProfileView_get_queryset Sample.db Sample.as_bob "alice"
           = Return ((1, Sample.alice), qs)
           ∧ (2, Sample.future_post) ∈ qs)
  ∧ (∃ qs, ProfileView_get_queryset Sample.db AnonymousUser "alice"
           = Return ((1, Sample.alice), qs)
           ∧ (2, Sample.future_post) ∈ qs)
  ∧ (2, Sample.future_post) ∉ IndexHome_get_queryset Sample.db Sample.now.
Proof.
  split; [done|]. split; [done|].
  split; [|split].
  - eexists. split; [vm_compute; reflexivity|]. left.
  - eexists. split; [vm_compute; reflexivity|]. left.
  - rewrite elem_of_IndexHome_get_queryset. intros (_ & _ & Hdate & _).
    vm_compute in Hdate. by apply Hdate.
Qed.

(** C3.  When somebody who is not the author asks for the detail page of a
    stored post that does not pass the filter for visitors, the answer is
    the 404 response and the store is untouched: the very answer the same
    viewer gets for an id under which no post is stored. *)
Theorem PostDetailView_hidden_is_not_found db now user i p j :
  posts db !! i = Some p →
  user_pk user ≠ Some (Post.author p) →
  ¬ (Post.pub_date p ≤ now
     ∧ category__is_published db p = true
     ∧ Post.is_published p = true) →
  posts db !! j = None →
  PostDetailView db now user i = (db, HttpResponseNotFound)
  ∧ PostDetailView db now user j = PostDetailView db now user i.
Proof.
  intros Hi Hne Hhidden Hj. unfold PostDetailView.
  rewrite !PostDetailView_get_object_eq, Hi, Hj.
  destruct (decide (Some (Post.author p) ≠ user_pk user)) as [|Hsame];
    [|destruct Hsame; congruence].
  by destruct (decide _).
Qed.

Lemma PostDetailView_hidden_is_not_found_witness :
  PostDetailView Sample.db Sample.now Sample.as_bob 2
  = (Sample.db, HttpResponseNotFound)
  ∧ PostDetailView Sample.db Sample.now Sample.as_bob 99
    = PostDetailView Sample.db Sample.now Sample.as_bob 2.
Proof.
  apply (PostDetailView_hidden_is_not_found Sample.db Sample.now
           Sample.as_bob 2 Sample.future_post 99).
  - reflexivity.
  - discriminate.
  - intros [Hdate _]. vm_compute in Hdate. by apply Hdate.
  - reflexivity.
Defined.

(** C4.  The author of a stored post, logged in, finds the post on a page of
    the listing of the own profile and gets its detail page, whatever the
    publication flag, the date and the category of the post are. *)
Theorem author_always_sees_own_post db now user row i p :
  unique_usernames db →
  posts db !! i = Some p →
  users db !! Post.author p = Some row →
  user_pk user = Some (Post.author p) →
  (∃ qs, ProfileView_get_queryset db user (User.username row)
         = Return ((Post.author p, row), qs)
         ∧ (i, p) ∈ qs)
  ∧ (∃ page page_obj,
       ProfileView db user (User.username row) page
       = (db, TemplateResponse "blog/profile.html"
                (ProfileContext page_obj (Post.author p, row)))
       ∧ (i, p) ∈ page_obj)
  ∧ PostDetailView_get_object db now user i = Return (i, p)
  ∧ PostDetailView db now user i
    = (db, TemplateResponse "blog/detail.html"
             (PostDetailView_get_context_data db (i, p))).
Proof.
  intros Huniq Hi Hrow Huser.
  pose proof (ProfileView_get_queryset_owner db user _ row Huniq Hrow Huser)
    as Hqs.
  assert ((i, p) ∈ filter (λ r, Post.author r.2 = Post.author p)
                     (PostListMixin_get_queryset db)) as Hin.
  { apply list_elem_of_filter. split; [done|].
    by apply elem_of_PostListMixin_get_queryset. }
  assert (PostDetailView_get_object db now user i = Return (i, p)) as Hobj.
  { rewrite PostDetailView_get_object_eq, Hi.
    destruct (decide (Some (Post.author p) ≠ user_pk user)); [|done].
    congruence. }
  split; [eauto|]. split; [|split; [done|]].
  - destruct (elem_of_Paginator_page _ _ Hin) as (page & _ & Hpage).
    exists page. eexists. split; [|exact Hpage].
    unfold ProfileView. by rewrite Hqs.
  - unfold PostDetailView. by rewrite Hobj.
Qed.

Lemma author_always_sees_own_post_witness :
  (∃ qs, ProfileView_get_queryset Sample.db Sample.as_bob "bob"
         = Return ((2, Sample.bob), qs)
         ∧ (5, Sample.draft_post) ∈ qs)
  ∧ (∃ page page_obj,
       ProfileView Sample.db Sample.as_bob "bob" page
       = (Sample.db, TemplateResponse "blog/profile.html"
                       (ProfileContext page_obj (2, Sample.bob)))
       ∧ (5, Sample.draft_post) ∈ page_obj)
  ∧ PostDetailView_get_object Sample.db Sample.now Sample.as_bob 5
    = Return (5, Sample.draft_post)
  ∧ PostDetailView Sample.db Sample.now Sample.as_bob 5
    = (Sample.db, TemplateResponse "blog/detail.html"
                    (PostDetailView_get_context_data Sample.db
                       (5, Sample.draft_post))).
Proof.
  apply (author_always_sees_own_post Sample.db Sample.now Sample.as_bob
           Sample.bob 5 Sample.draft_post).
  - apply (bool_decide_unpack _). vm_compute. exact I.
  - reflexivity.
  - reflexivity.
  - reflexivity.
Defined.

(** C7.  The posts of an unpublished category are on no home listing, on no
    category listing and on no profile listing asked for by somebody who is
    not their author; and, slugs being unique, the listing page of the
    category itself is the 404 response. *)
Theorem unpublished_category_hides_its_posts db now c cat i p :
  categories db !! c = Some cat →
  Category.is_published cat = false →
  Post.category p = Some c →
  ((i, p) ∉ IndexHome_get_queryset db now)
  ∧ (∀ slug category qs,
       CategoryListView_get_queryset db now slug = Return (category, qs) →
       (i, p) ∉ qs)
  ∧ (∀ user username author qs,
       user_pk user ≠ Some (Post.author p) →
       ProfileView_get_queryset db user username = Return (author, qs) →
       (i, p) ∉ qs)
  ∧ (unique_slugs db →
     CategoryListView_get_queryset db now (Category.slug cat) = Raise Http404
     ∧ ∀ page, CategoryListView db now (Category.slug cat) page
               = (db, HttpResponseNotFound)).
Proof.
  intros Hc Hunpub Hcat.
  assert (category__is_published db p ≠ true) as Hjoin.
  { unfold category__is_published. rewrite Hcat, Hc. congruence. }
  split; [|split; [|split]].
  - rewrite elem_of_IndexHome_get_queryset. tauto.
  - intros slug category qs Hqs Hin.
    destruct (elem_of_CategoryListView_get_queryset _ _ _ _ _ _ _ Hqs Hin)
      as (_ & _ & _ & ? & _). done.
  - intros user username author qs Hne Hqs Hin.
    destruct (elem_of_ProfileView_get_queryset _ _ _ _ _ _ _ Hqs Hin)
      as (_ & Hauthor & Hvisitor).
    destruct Hvisitor as [_ ?]; [congruence|done].
  - intros Huniq.
    assert (CategoryListView_get_queryset db now (Category.slug cat)
            = Raise Http404) as Hraise.
    { unfold CategoryListView_get_queryset.
      rewrite (get_category_by_slug db c cat) by done. by rewrite Hunpub. }
    split; [done|]. intros page. unfold CategoryListView. by rewrite Hraise.
Qed.

Lemma unpublished_category_hides_its_posts_witness :
  ((4, Sample.shelved_post) ∉ IndexHome_get_queryset Sample.db Sample.now)
  ∧ (∀ slug category qs,
       CategoryListView_get_queryset Sample.db Sample.now slug
       = Return (category, qs) →
       (4, Sample.shelved_post) ∉ qs)
  ∧ (∀ user username author qs,
       user_pk user ≠ Some (Post.author Sample.shelved_post) →
       ProfileView_get_queryset Sample.db user username
       = Return (author, qs) →
       (4, Sample.shelved_post) ∉ qs)
  ∧ (unique_slugs Sample.db →
     CategoryListView_get_queryset Sample.db Sample.now "drafts"
     = Raise Http404
     ∧ ∀ page, CategoryListView Sample.db Sample.now "drafts" page
               = (Sample.db, HttpResponseNotFound)).
Proof.
  apply (unpublished_category_hides_its_posts Sample.db Sample.now 2
           Sample.drafts 4 Sample.shelved_post).
  - reflexivity.
  - reflexivity.
  - reflexivity.
Defined.

(** ** Forms and saving *)

Lemma PostForm_fields_eq :
  PostForm_fields
  = [PostField.title; PostField.text; PostField.pub_date;
     PostField.is_published; PostField.category; PostField.location].
Proof. reflexivity. Qed.

(** The form never writes the author of the instance it is bound to,
    whatever the client sends under that key. *)
Lemma PostForm_construct_instance_eq data instance :
  PostForm_construct_instance PostForm_fields data instance
  = PostInstance.mk (PostInstance.pk instance)
      (default "" (PostData.title data)) (default "" (PostData.text data))
      (default 0 (PostData.pub_date data)) (PostData.is_published data)
      (PostInstance.author instance)
      (PostData.category data) (PostData.location data).
Proof. reflexivity. Qed.

Lemma CommentForm_construct_instance_eq data instance :
  CommentForm_construct_instance CommentForm_fields data instance
  = CommentInstance.mk (CommentInstance.pk instance)
      (CommentInstance.post instance) (CommentInstance.author instance)
      (default "" (CommentData.text data)).
Proof. reflexivity. Qed.


Lemma le_foldr_max (l : list Z) k : k ∈ l → k ≤ foldr Z.max 0 l.
Proof.
  induction l as [|x l IH]; [by intros ?%elem_of_nil|].
  intros [->|Hin%IH]%elem_of_cons; simpl; lia.
Qed.

(** The key [save] inserts under is not in use. *)
Lemma next_pk_fresh {A} (table : gmap Z A) : table !! next_pk table = None.
Proof.
  destruct (table !! next_pk table) as [x|] eqn:Hx; [|done].
  apply elem_of_map_to_list in Hx.
  apply (list_elem_of_fmap_2 fst) in Hx. apply le_foldr_max in Hx.
  unfold next_pk in Hx. simpl in Hx. lia.
Qed.

(** ** Create, update, delete *)

Lemma ChangePostMixin_dispatch_eq post_rejection db user post_id view :
  ChangePostMixin_dispatch post_rejection db user post_id view
  = match posts db !! post_id with
    | None => Raise Http404
    | Some p =>
        if decide (Some (Post.author p) ≠ user_pk user)
        then rejected db post_rejection post_id
        else view (post_id, p)
    end.
Proof.
  unfold ChangePostMixin_dispatch. rewrite get_object_or_404_pk.
  by destruct (posts db !! post_id).
Qed.

Lemma CommentChangeMixin_dispatch_eq comment_rejection db user comment_id view :
  CommentChangeMixin_dispatch comment_rejection db user comment_id view
  = match comments db !! comment_id with
    | None => Raise Http404
    | Some cm =>
        if decide (Some (Comment.author cm) ≠ user_pk user)
        then rejected db comment_rejection (Comment.post cm)
        else view (comment_id, cm)
    end.
Proof.
  unfold CommentChangeMixin_dispatch. rewrite get_object_or_404_pk.
  by destruct (comments db !! comment_id).
Qed.

Lemma as_view_rejected db how post_id :
  ∃ resp,
    (resp = HttpResponseNotFound
     ∨ resp = HttpResponseRedirect (reverse (post_detail post_id)))
    ∧ as_view db (rejected db how post_id) = (db, resp).
Proof. destruct how; simpl; eauto. Qed.

Lemma is_authenticated_pk user pk :
  user_pk user = Some pk → is_authenticated user = true.
Proof. by destruct user. Qed.

(** What the views do for the author, or for any logged-in user where
    there is no author to be. *)
Lemma CreatePostView_valid db user pk data :
  user_pk user = Some pk → PostForm_is_valid db data = true →
  CreatePostView db user (POST data)
  = (set_posts db
       (<[next_pk (posts db) :=
            Post_row (PostForm_construct_instance PostForm_fields data Post_new)
              pk]> (posts db)),
     HttpResponseRedirect (reverse (profile (user_str user)))).
Proof.
  intros Hpk Hvalid. unfold CreatePostView, LoginRequiredMixin_dispatch.
  rewrite (is_authenticated_pk _ _ Hpk), Hvalid.
  unfold CreatePostView_form_valid, Post_save. simpl. by rewrite Hpk.
Qed.

Lemma PostUpdateView_by_author post_rejection db user i p data :
  posts db !! i = Some p → user_pk user = Some (Post.author p) →
  PostForm_is_valid db data = true →
  PostUpdateView post_rejection db user i (POST data)
  = (set_posts db
       (<[i := Post_row (PostForm_construct_instance PostForm_fields data
                           (Post_instance (i, p)))
                (Post.author p)]> (posts db)),
     HttpResponseRedirect (reverse (post_detail i))).
Proof.
  intros Hi Hpk Hvalid. unfold PostUpdateView, LoginRequiredMixin_dispatch.
  rewrite (is_authenticated_pk _ _ Hpk), ChangePostMixin_dispatch_eq, Hi.
  destruct (decide (Some (Post.author p) ≠ user_pk user)); [congruence|].
  by rewrite Hvalid.
Qed.

Lemma PostDeleteView_by_author post_rejection db user i p :
  posts db !! i = Some p → user_pk user = Some (Post.author p) →
  PostDeleteView post_rejection db user i (POST ())
  = (Post_delete db i,
     HttpResponseRedirect (reverse (profile (user_str user)))).
Proof.
  intros Hi Hpk. unfold PostDeleteView, LoginRequiredMixin_dispatch.
  rewrite (is_authenticated_pk _ _ Hpk), ChangePostMixin_dispatch_eq, Hi.
  by destruct (decide (Some (Post.author p) ≠ user_pk user)); [congruence|].
Qed.

Lemma CommentCreateView_valid db user pk post_id data :
  user_pk user = Some pk → CommentForm_is_valid db data = true →
  CommentCreateView db user post_id (POST data)
  = match posts db !! post_id with
    | Some _ =>
        (set_comments db
           (<[next_pk (comments db) :=
                Comment.mk post_id pk (default "" (CommentData.text data))]>
              (comments db)),
         HttpResponseRedirect (reverse (post_detail post_id)))
    | None => (db, HttpResponseNotFound)
    end.
Proof.
  intros Hpk Hvalid. unfold CommentCreateView, LoginRequiredMixin_dispatch.
  rewrite (is_authenticated_pk _ _ Hpk), Hvalid.
  unfold CommentCreateView_form_valid. rewrite get_object_or_404_pk.
  destruct (posts db !! post_id); simpl; [|done].
  unfold Comment_save. simpl. by rewrite Hpk.
Qed.

Lemma CommentUpdateView_by_author comment_rejection db user c cm data :
  comments db !! c = Some cm → user_pk user = Some (Comment.author cm) →
  CommentForm_is_valid db data = true →
  CommentUpdateView comment_rejection db user c (POST data)
  = (set_comments db
       (<[c := Comment.mk (Comment.post cm) (Comment.author cm)
                 (default "" (CommentData.text data))]> (comments db)),
     HttpResponseRedirect (reverse (post_detail (Comment.post cm)))).
Proof.
  intros Hc Hpk Hvalid. unfold CommentUpdateView, LoginRequiredMixin_dispatch.
  rewrite (is_authenticated_pk _ _ Hpk), CommentChangeMixin_dispatch_eq, Hc.
  destruct (decide (Some (Comment.author cm) ≠ user_pk user)); [congruence|].
  by rewrite Hvalid.
Qed.

Lemma CommentDeleteView_by_author comment_rejection db user c cm :
  comments db !! c = Some cm → user_pk user = Some (Comment.author cm) →
  CommentDeleteView comment_rejection db user c (POST ())
  = (Comment_delete db c,
     HttpResponseRedirect (reverse (post_detail (Comment.post cm)))).
Proof.
  intros Hc Hpk. unfold CommentDeleteView, LoginRequiredMixin_dispatch.
  rewrite (is_authenticated_pk _ _ Hpk), CommentChangeMixin_dispatch_eq, Hc.
  by destruct (decide (Some (Comment.author cm) ≠ user_pk user)); [congruence|].
Qed.

(** Somebody who is not the author is turned down, and nothing is stored. *)
Lemma PostUpdateView_by_other post_rejection db user i p request :
  posts db !! i = Some p → is_authenticated user = true →
  user_pk user ≠ Some (Post.author p) →
  PostUpdateView post_rejection db user i request
  = as_view db (rejected db post_rejection i).
Proof.
  intros Hi Hauth Hne. unfold PostUpdateView, LoginRequiredMixin_dispatch.
  rewrite Hauth, ChangePostMixin_dispatch_eq, Hi.
  destruct (decide (Some (Post.author p) ≠ user_pk user)) as [|Hsame];
    [done|]. destruct Hsame. congruence.
Qed.

Lemma PostDeleteView_by_other post_rejection db user i p request :
  posts db !! i = Some p → is_authenticated user = true →
  user_pk user ≠ Some (Post.author p) →
  PostDeleteView post_rejection db user i request
  = as_view db (rejected db post_rejection i).
Proof.
  intros Hi Hauth Hne. unfold PostDeleteView, LoginRequiredMixin_dispatch.
  rewrite Hauth, ChangePostMixin_dispatch_eq, Hi.
  destruct (decide (Some (Post.author p) ≠ user_pk user)) as [|Hsame];
    [done|]. destruct Hsame. congruence.
Qed.

Lemma CommentUpdateView_by_other comment_rejection db user c cm request :
  comments db !! c = Some cm → is_authenticated user = true →
  user_pk user ≠ Some (Comment.author cm) →
  CommentUpdateView comment_rejection db user c request
  = as_view db (rejected db comment_rejection (Comment.post cm)).
Proof.
  intros Hc Hauth Hne. unfold CommentUpdateView, LoginRequiredMixin_dispatch.
  rewrite Hauth, CommentChangeMixin_dispatch_eq, Hc.
  destruct (decide (Some (Comment.author cm) ≠ user_pk user)) as [|Hsame];
    [done|]. destruct Hsame. congruence.
Qed.

Lemma CommentDeleteView_by_other comment_rejection db user c cm request :
  comments db !! c = Some cm → is_authenticated user = true →
  user_pk user ≠ Some (Comment.author cm) →
  CommentDeleteView comment_rejection db user c request
  = as_view db (rejected db comment_rejection (Comment.post cm)).
Proof.
  intros Hc Hauth Hne. unfold CommentDeleteView, LoginRequiredMixin_dispatch.
  rewrite Hauth, CommentChangeMixin_dispatch_eq, Hc.
  destruct (decide (Some (Comment.author cm) ≠ user_pk user)) as [|Hsame];
    [done|]. destruct Hsame. congruence.
Qed.

(** C5.  A logged-in user who is not the author of a stored post, or of a
    stored comment, gets the 404 response or a redirect to the detail page
    for every edit and every delete request on it, whichever of the two the
    mixins choose for the item type, and the store after the request is the
    store before it. *)
Theorem only_the_author_edits_or_deletes
    post_rejection comment_rejection db user :
  is_authenticated user = true →
  (∀ i p (edit : Request PostData.t) (del : Request unit),
     posts db !! i = Some p → user_pk user ≠ Some (Post.author p) →
     ∃ resp,
       (resp = HttpResponseNotFound
        ∨ resp = HttpResponseRedirect (reverse (post_detail i)))
       ∧ PostUpdateView post_rejection db user i edit = (db, resp)
       ∧ PostDeleteView post_rejection db user i del = (db, resp))
  ∧ (∀ c cm (edit : Request CommentData.t) (del : Request unit),
       comments db !! c = Some cm →
       user_pk user ≠ Some (Comment.author cm) →
       ∃ resp,
         (resp = HttpResponseNotFound
          ∨ resp = HttpResponseRedirect
                     (reverse (post_detail (Comment.post cm))))
         ∧ CommentUpdateView comment_rejection db user c edit = (db, resp)
         ∧ CommentDeleteView comment_rejection db user c del = (db, resp)).
Proof.
  intros Hauth. split.
  - intros i p edit del Hi Hne.
    destruct (as_view_rejected db post_rejection i) as (resp & Hresp & Hview).
    exists resp. split; [done|].
    by rewrite (PostUpdateView_by_other _ _ _ _ p),
               (PostDeleteView_by_other _ _ _ _ p).
  - intros c cm edit del Hc Hne.
    destruct (as_view_rejected db comment_rejection (Comment.post cm))
      as (resp & Hresp & Hview).
    exists resp. split; [done|].
    by rewrite (CommentUpdateView_by_other _ _ _ _ cm),
               (CommentDeleteView_by_other _ _ _ _ cm).
Qed.

Lemma only_the_author_edits_or_deletes_witness :
  (∃ resp,
     (resp = HttpResponseNotFound
      ∨ resp = HttpResponseRedirect (reverse (post_detail 1)))
     ∧ PostUpdateView RedirectToDetail Sample.db Sample.as_bob 1
         (POST Sample.post_data) = (Sample.db, resp)
     ∧ PostDeleteView RedirectToDetail Sample.db Sample.as_bob 1 (POST ())
       = (Sample.db, resp))
  ∧ (∃ resp,
       (resp = HttpResponseNotFound
        ∨ resp = HttpResponseRedirect (reverse (post_detail 1)))
       ∧ CommentUpdateView NotFound Sample.db Sample.as_alice 1
           (POST Sample.comment_data) = (Sample.db, resp)
       ∧ CommentDeleteView NotFound Sample.db Sample.as_alice 1 (POST ())
         = (Sample.db, resp)).
Proof.
  split.
  - destruct (only_the_author_edits_or_deletes RedirectToDetail NotFound
                Sample.db Sample.as_bob eq_refl) as [Hposts _].
    apply (Hposts 1 Sample.live_post); [reflexivity|discriminate].
  - destruct (only_the_author_edits_or_deletes RedirectToDetail NotFound
                Sample.db Sample.as_alice eq_refl) as [_ Hcomments].
    apply (Hcomments 1 (Comment.mk 1 2 "first")); [reflexivity|discriminate].
Defined.

(** The requests the witness above turns down, evaluated. *)
Example edit_by_other_is_redirected :
  PostUpdateView RedirectToDetail Sample.db Sample.as_bob 1
    (POST Sample.post_data)
  = (Sample.db, HttpResponseRedirect "/posts/1/").
Proof. vm_compute. reflexivity. Qed.

Example comment_delete_by_other_is_not_found :
  CommentDeleteView NotFound Sample.db Sample.as_alice 1 (POST ())
  = (Sample.db, HttpResponseNotFound).
Proof. vm_compute. reflexivity. Qed.

(** An edit and a delete by the author do change the store. *)
Example edit_by_author_is_stored :
  posts (PostUpdateView RedirectToDetail Sample.db Sample.as_alice 1
           (POST Sample.post_data)).1 !! 1
  = Some (Post.mk "edited" "body" 6 true 1 (Some 1) None).
Proof. vm_compute. reflexivity. Qed.

Example delete_by_author_removes :
  posts (PostDeleteView RedirectToDetail Sample.db Sample.as_alice 1
           (POST ())).1 !! 1 = None
  ∧ comments (PostDeleteView RedirectToDetail Sample.db Sample.as_alice 1
                (POST ())).1 !! 1 = None.
Proof. vm_compute. done. Qed.

(** ** Who is stored as the author *)

Lemma PostForm_is_valid_set_author db data a :
  PostForm_is_valid db (PostData_set_author data a) = PostForm_is_valid db data.
Proof. reflexivity. Qed.

Lemma CommentForm_is_valid_set_author db data a :
  CommentForm_is_valid db (CommentData_set_author data a)
  = CommentForm_is_valid db data.
Proof. reflexivity. Qed.

(** A row the post creation view leaves in the table that was not there
    before has the requester as its author. *)
Lemma CreatePostView_new_rows db user request i p :
  posts (CreatePostView db user request).1 !! i = Some p →
  posts db !! i = Some p ∨ user_pk user = Some (Post.author p).
Proof.
  unfold CreatePostView, LoginRequiredMixin_dispatch.
  destruct user as [|pk row]; simpl; [by left|].
  destruct request as [|data]; simpl; [by left|].
  destruct (PostForm_is_valid db data); simpl; [|by left].
  rewrite lookup_insert. case_decide; [|by left].
  intros [= <-]. by right.
Qed.

Lemma CommentCreateView_new_rows db user post_id request c cm :
  comments (CommentCreateView db user post_id request).1 !! c = Some cm →
  comments db !! c = Some cm
  ∨ (user_pk user = Some (Comment.author cm) ∧ Comment.post cm = post_id).
Proof.
  unfold CommentCreateView, LoginRequiredMixin_dispatch.
  destruct user as [|pk row]; simpl; [by left|].
  destruct request as [|data]; simpl; [by left|].
  destruct (CommentForm_is_valid db data); simpl; [|by left].
  unfold CommentCreateView_form_valid. rewrite get_object_or_404_pk.
  destruct (posts db !! post_id); simpl; [|by left].
  rewrite lookup_insert. case_decide; [|by left].
  intros [= <-]. by right.
Qed.

(** C6.  A valid post form, and a valid comment form on a stored post, sent
    by a logged-in user is stored as a new row whose author is that user;
    no row a create request adds has another author; and the store and the
    response are the same whatever the client sends under the [author]
    key. *)
Theorem create_stores_the_session_user db user pk :
  user_pk user = Some pk →
  (∀ data, PostForm_is_valid db data = true →
     ∃ i p, posts db !! i = None
            ∧ posts (CreatePostView db user (POST data)).1 !! i = Some p
            ∧ Post.author p = pk)
  ∧ (∀ post_id data,
       is_Some (posts db !! post_id) → CommentForm_is_valid db data = true →
       ∃ c cm, comments db !! c = None
               ∧ comments (CommentCreateView db user post_id (POST data)).1
                   !! c = Some cm
               ∧ Comment.author cm = pk)
  ∧ (∀ request i p,
       posts (CreatePostView db user request).1 !! i = Some p →
       posts db !! i = Some p ∨ Post.author p = pk)
  ∧ (∀ post_id request c cm,
       comments (CommentCreateView db user post_id request).1 !! c = Some cm →
       comments db !! c = Some cm ∨ Comment.author cm = pk)
  ∧ (∀ data a,
       CreatePostView db user (POST (PostData_set_author data a))
       = CreatePostView db user (POST data))
  ∧ (∀ post_id data a,
       CommentCreateView db user post_id
         (POST (CommentData_set_author data a))
       = CommentCreateView db user post_id (POST data)).
Proof.
  intros Hpk. split; [|split; [|split; [|split; [|split; [done|done]]]]].
  - intros data Hvalid. rewrite (CreatePostView_valid db user pk) by done.
    eexists _, _. split; [apply next_pk_fresh|]. simpl.
    split; [apply lookup_insert_eq|done].
  - intros post_id data [p Hp] Hvalid.
    rewrite (CommentCreateView_valid db user pk) by done. rewrite Hp.
    eexists _, _. split; [apply next_pk_fresh|]. simpl.
    split; [apply lookup_insert_eq|done].
  - intros request i p [?|Hauthor]%CreatePostView_new_rows; [by left|].
    right. congruence.
  - intros post_id request c cm [?|[Hauthor _]]%CommentCreateView_new_rows;
      [by left|]. right. congruence.
Qed.

Lemma create_stores_the_session_user_witness :
  (∃ i p, posts Sample.db !! i = None
          ∧ posts (CreatePostView Sample.db Sample.as_alice
                     (POST Sample.post_data)).1 !! i = Some p
          ∧ Post.author p = 1)
  ∧ CreatePostView Sample.db Sample.as_alice
      (POST (PostData_set_author Sample.post_data (Some 2)))
    = CreatePostView Sample.db Sample.as_alice (POST Sample.post_data).
Proof.
  destruct (create_stores_the_session_user Sample.db Sample.as_alice 1 eq_refl)
    as (Hpost & _ & _ & _ & Hsame & _).
  split; [apply Hpost; reflexivity|apply Hsame].
Defined.

Example create_post_ignores_client_author :
  PostData.author Sample.post_data = Some 2
  ∧ posts (CreatePostView Sample.db Sample.as_alice
             (POST Sample.post_data)).1 !! 6
    = Some (Post.mk "edited" "body" 6 true 1 (Some 1) None).
Proof. vm_compute. done. Qed.

(** ** Where a successful request is redirected to *)

(** C8 as it is stated fails: an edit of a post by its author is stored and
    answered by a redirect to the detail page of the post, which is the
    profile page of nobody. *)
Lemma PostUpdateView_does_not_redirect_to_profile :
  ¬ (∀ post_rejection db user i p data,
       posts db !! i = Some p → user_pk user = Some (Post.author p) →
       PostForm_is_valid db data = true →
       ∃ username,
         (PostUpdateView post_rejection db user i (POST data)).2
         = HttpResponseRedirect (reverse (profile username))).
Proof.
  intros Hclaim.
  destruct (Hclaim RedirectToDetail Sample.db Sample.as_alice 1
              Sample.live_post Sample.post_data) as [username Hresp];
    [reflexivity..|].
  vm_compute in Hresp. discriminate.
Qed.

(** C8 (as amended).  For a logged-in user: a valid new post is stored and
    answered by a redirect to the profile page of the user; a valid edit of
    an own post is stored and answered by a redirect to the detail page of
    that post; the delete of an own post removes it and is answered by a
    redirect to the profile page of the user; a valid new comment on a
    stored post, a valid edit of an own comment and the delete of an own
    comment are carried out and answered by a redirect to the detail page of
    the post of the comment. *)
Theorem success_redirects post_rejection comment_rejection db user pk :
  user_pk user = Some pk →
  (∀ data, PostForm_is_valid db data = true →
     CreatePostView db user (POST data)
     = (set_posts db
          (<[next_pk (posts db) :=
               Post_row
                 (PostForm_construct_instance PostForm_fields data Post_new)
                 pk]> (posts db)),
        HttpResponseRedirect (reverse (profile (user_str user)))))
  ∧ (∀ i p data,
       posts db !! i = Some p → Post.author p = pk →
       PostForm_is_valid db data = true →
       PostUpdateView post_rejection db user i (POST data)
       = (set_posts db
            (<[i := Post_row
                      (PostForm_construct_instance PostForm_fields data
                         (Post_instance (i, p)))
                      pk]> (posts db)),
          HttpResponseRedirect (reverse (post_detail i))))
  ∧ (∀ i p,
       posts db !! i = Some p → Post.author p = pk →
       PostDeleteView post_rejection db user i (POST ())
       = (Post_delete db i,
          HttpResponseRedirect (reverse (profile (user_str user)))))
  ∧ (∀ post_id data,
       is_Some (posts db !! post_id) → CommentForm_is_valid db data = true →
       CommentCreateView db user post_id (POST data)
       = (set_comments db
            (<[next_pk (comments db) :=
                 Comment.mk post_id pk (default "" (CommentData.text data))]>
               (comments db)),
          HttpResponseRedirect (reverse (post_detail post_id))))
  ∧ (∀ c cm data,
       comments db !! c = Some cm → Comment.author cm = pk →
       CommentForm_is_valid db data = true →
       CommentUpdateView comment_rejection db user c (POST data)
       = (set_comments db
            (<[c := Comment.mk (Comment.post cm) pk
                      (default "" (CommentData.text data))]> (comments db)),
          HttpResponseRedirect (reverse (post_detail (Comment.post cm)))))
  ∧ (∀ c cm,
       comments db !! c = Some cm → Comment.author cm = pk →
       CommentDeleteView comment_rejection db user c (POST ())
       = (Comment_delete db c,
          HttpResponseRedirect (reverse (post_detail (Comment.post cm))))).
Proof.
  intros Hpk. split; [|split; [|split; [|split; [|split]]]].
  - intros data Hvalid. by apply CreatePostView_valid.
  - intros i p data Hi <- Hvalid. by apply PostUpdateView_by_author.
  - intros i p Hi Hauthor. apply (PostDeleteView_by_author _ _ _ _ p); [done|].
    congruence.
  - intros post_id data [p Hp] Hvalid.
    rewrite (CommentCreateView_valid db user pk) by done. by rewrite Hp.
  - intros c cm data Hc <- Hvalid. by apply CommentUpdateView_by_author.
  - intros c cm Hc Hauthor.
    apply (CommentDeleteView_by_author _ _ _ _ cm); [done|]. congruence.
Qed.

Lemma success_redirects_witness :
  (CreatePostView Sample.db Sample.as_alice (POST Sample.post_data)).2
  = HttpResponseRedirect "/profile/alice/"
  ∧ (PostUpdateView RedirectToDetail Sample.db Sample.as_alice 1
       (POST Sample.post_data)).2
    = HttpResponseRedirect "/posts/1/"
  ∧ (PostDeleteView RedirectToDetail Sample.db Sample.as_alice 1 (POST ())).2
    = HttpResponseRedirect "/profile/alice/"
  ∧ (CommentCreateView Sample.db Sample.as_alice 4
       (POST Sample.comment_data)).2
    = HttpResponseRedirect "/posts/4/"
  ∧ (CommentUpdateView NotFound Sample.db Sample.as_bob 1
       (POST Sample.comment_data)).2
    = HttpResponseRedirect "/posts/1/"
  ∧ (CommentDeleteView NotFound Sample.db Sample.as_bob 1 (POST ())).2
    = HttpResponseRedirect "/posts/1/".
Proof.
  destruct (success_redirects RedirectToDetail NotFound Sample.db
              Sample.as_alice 1 eq_refl)
    as (Hcreate & Hedit & Hdelete & Hcomment & _ & _).
  destruct (success_redirects RedirectToDetail NotFound Sample.db
              Sample.as_bob 2 eq_refl)
    as (_ & _ & _ & _ & Hcedit & Hcdelete).
  split; [|split; [|split; [|split; [|split]]]].
  - rewrite Hcreate; reflexivity.
  - rewrite (Hedit 1 Sample.live_post); reflexivity.
  - rewrite (Hdelete 1 Sample.live_post); reflexivity.
  - rewrite Hcomment; [reflexivity|by eexists|reflexivity].
  - rewrite (Hcedit 1 (Comment.mk 1 2 "first")); reflexivity.
  - rewrite (Hcdelete 1 (Comment.mk 1 2 "first")); reflexivity.
Defined.

(** ** Commenting *)



(** ** Editing the profile *)




(** The request of the witness does change the row of the requester, and
    the redirect names the profile under the new user name. *)
Example profile_edit_is_stored :
  ProfileUpdateView Sample.db Sample.as_bob (POST Sample.user_data)
  = (User_save Sample.db 2 (User.mk "bobby" "Robert" "" "bobby@example.org"),
     HttpResponseRedirect "/profile/bobby/").
Proof. vm_compute. reflexivity. Qed.

(** A user name another user holds is refused, and nothing is stored. *)
Example profile_edit_name_taken :
  ProfileUpdateView Sample.db Sample.as_bob
    (POST (UserData.mk (Some "alice") None None None))
  = (Sample.db, TemplateResponse "blog/user.html" FormContext).
Proof. vm_compute. reflexivity. Qed.




(** * Further properties *)

(** ** blog/urls.py: a path [reverse] builds resolves to its route *)












(** ** blog/views.py: the detail page *)

Lemma get_object_or_404_Return {A} (qs : QuerySet A) r :
  get_object_or_404 qs = Return r → qs = [r].
Proof.
  unfold get_object_or_404. destruct qs as [|r0 [|r1 qs]]; simpl; [done| |done].
  by intros [= ->].
Qed.

Lemma get_object_or_404_Http404 {A} (qs : QuerySet A) :
  get_object_or_404 qs = Raise Http404 ↔ qs = [].
Proof. unfold get_object_or_404. by destruct qs as [|r0 [|r1 qs]]. Qed.

Lemma PostDetailView_eq db now user i :
  PostDetailView db now user i
  = match posts db !! i with
    | None => (db, HttpResponseNotFound)
    | Some p =>
        if decide (user_pk user = Some (Post.author p)
                   ∨ (Post.is_published p = true ∧ Post.pub_date p ≤ now
                      ∧ category__is_published db p = true))
        then (db, TemplateResponse "blog/detail.html"
                    (PostDetailView_get_context_data db (i, p)))
        else (db, HttpResponseNotFound)
    end.
Proof.
  unfold PostDetailView. rewrite PostDetailView_get_object_eq.
  destruct (posts db !! i) as [p|]; [|done].
  destruct (decide (Some (Post.author p) ≠ user_pk user)) as [Hother|Hsame].
  - destruct (decide (Post.pub_date p ≤ now
                      ∧ category__is_published db p = true
                      ∧ Post.is_published p = true)) as [Hlive|Hhidden]; simpl.
    + rewrite decide_True; [done|]. right. tauto.
    + rewrite decide_False; [done|]. intros [?|?]; [congruence|tauto].
  - simpl. rewrite decide_True; [done|]. left.
    destruct (decide (user_pk user = Some (Post.author p))); [done|].
    destruct Hsame. congruence.
Qed.

(** The detail page of a stored post is rendered for its author and, when
    the post is published, not dated after the request and in a published
    category, for everybody; for anybody else the answer is the 404
    response.  There is no third answer. *)
Theorem PostDetailView_renders_iff db now user i p :
  posts db !! i = Some p →
  (PostDetailView db now user i
   = (db, TemplateResponse "blog/detail.html"
            (PostDetailView_get_context_data db (i, p)))
   ↔ user_pk user = Some (Post.author p)
     ∨ (Post.is_published p = true ∧ Post.pub_date p ≤ now
        ∧ category__is_published db p = true))
  ∧ (PostDetailView db now user i = (db, HttpResponseNotFound)
     ↔ ¬ (user_pk user = Some (Post.author p)
          ∨ (Post.is_published p = true ∧ Post.pub_date p ≤ now
             ∧ category__is_published db p = true))).
Proof.
  intros Hi. rewrite PostDetailView_eq, Hi.
  case_decide; split; split; try done; intros; simplify_eq.
Qed.

Lemma PostDetailView_renders_iff_witness :
  PostDetailView Sample.db Sample.now AnonymousUser 1
  = (Sample.db, TemplateResponse "blog/detail.html"
                  (PostDetailView_get_context_data Sample.db
                     (1, Sample.live_post)))
  ∧ PostDetailView Sample.db Sample.now Sample.as_alice 5
    = (Sample.db, HttpResponseNotFound).
Proof.
  split.
  - apply (PostDetailView_renders_iff Sample.db Sample.now AnonymousUser 1
             Sample.live_post); [reflexivity|].
    right. split; [reflexivity|]. split; [|reflexivity].
    unfold Sample.now. simpl. lia.
  - apply (PostDetailView_renders_iff Sample.db Sample.now Sample.as_alice 5
             Sample.draft_post); [reflexivity|].
    intros [|[? _]]; discriminate.
Defined.

(** Every post on the home listing has a detail page, whoever asks: the
    listing shows no link that ends in the 404 response. *)
Theorem IndexHome_posts_open db now user i p :
  (i, p) ∈ IndexHome_get_queryset db now →
  PostDetailView db now user i
  = (db, TemplateResponse "blog/detail.html"
           (PostDetailView_get_context_data db (i, p))).
Proof.
  intros (Hi & Hpub & Hdate & Hcat)%elem_of_IndexHome_get_queryset.
  rewrite PostDetailView_eq, Hi. rewrite decide_True; [done|]. by right.
Qed.

Lemma IndexHome_posts_open_witness :
  PostDetailView Sample.db Sample.now Sample.as_bob 1
  = (Sample.db, TemplateResponse "blog/detail.html"
                  (PostDetailView_get_context_data Sample.db
                     (1, Sample.live_post))).
Proof.
  apply (IndexHome_posts_open Sample.db Sample.now Sample.as_bob 1
           Sample.live_post).
  apply elem_of_IndexHome_get_queryset.
  split; [reflexivity|]. split; [reflexivity|]. split; [|reflexivity].
  unfold Sample.now. simpl. lia.
Defined.



(** ** blog/views.py: the category page *)

Lemma elem_of_objects_pair {A} (table : gmap Z A) (r : Z * A) :
  r ∈ objects table ↔ table !! r.1 = Some r.2.
Proof. destruct r. apply elem_of_objects. Qed.

(** The category page of a slug is built for a stored, published category
    of that slug, and lists exactly the posts of the home listing that are
    in this category. *)
Theorem CategoryListView_lists_home_posts_of_category
    db now slug category qs :
  CategoryListView_get_queryset db now slug = Return (category, qs) →
  categories db !! category.1 = Some category.2
  ∧ Category.slug category.2 = slug
  ∧ Category.is_published category.2 = true
  ∧ ∀ i p, (i, p) ∈ qs ↔
      (i, p) ∈ IndexHome_get_queryset db now
      ∧ Post.category p = Some category.1.
Proof.
  unfold CategoryListView_get_queryset.
  destruct (get_object_or_404 _) as [found|] eqn:Hget; simpl; [|done].
  intros [= <- <-]. apply get_object_or_404_Return in Hget.
  assert (found ∈ filter (λ r, Category.slug r.2 = slug
                               ∧ Category.is_published r.2 = true)
                    (objects (categories db))) as Hin
    by (rewrite Hget; left).
  apply list_elem_of_filter in Hin as [[Hslug Hpub] Hin].
  apply elem_of_objects_pair in Hin.
  split; [done|]. split; [done|]. split; [done|]. intros i p.
  rewrite elem_of_IndexHome_get_queryset, list_elem_of_filter,
    elem_of_PostListMixin_get_queryset.
  simpl. tauto.
Qed.

Lemma CategoryListView_lists_home_posts_of_category_witness :
  categories Sample.db !! 1 = Some Sample.news
  ∧ Category.slug Sample.news = "news"
  ∧ Category.is_published Sample.news = true
  ∧ ∀ i p,
      (i, p) ∈ filter (λ r, Post.is_published r.2 = true
                            ∧ Post.pub_date r.2 ≤ Sample.now
                            ∧ category__is_published Sample.db r.2 = true
                            ∧ Post.category r.2 = Some 1)
                 (PostListMixin_get_queryset Sample.db)
      ↔ (i, p) ∈ IndexHome_get_queryset Sample.db Sample.now
        ∧ Post.category p = Some 1.
Proof.
  apply (CategoryListView_lists_home_posts_of_category Sample.db Sample.now
           "news" (1, Sample.news)).
  vm_compute. reflexivity.
Defined.

Lemma filter_nil_iff {A} (P : A → Prop) `{!∀ x, Decision (P x)} (l : list A) :
  filter P l = [] ↔ ∀ x, x ∈ l → ¬ P x.
Proof.
  split.
  - intros Hnil x Hin HP.
    assert (x ∈ filter P l) as Hx by by apply list_elem_of_filter.
    rewrite Hnil in Hx. by apply elem_of_nil in Hx.
  - intros Hno. induction l as [|x l IH]; [done|].
    rewrite filter_cons_False by (apply Hno; left).
    apply IH. intros y Hy. apply Hno. by right.
Qed.

(** The category page answers with [Http404] exactly when no stored
    category has the slug and is published: an unknown slug and the slug of
    an unpublished category are told apart by nothing. *)
Theorem CategoryListView_not_found_iff db now slug :
  CategoryListView_get_queryset db now slug = Raise Http404
  ↔ ∀ c cat, categories db !! c = Some cat → Category.slug cat = slug →
             Category.is_published cat = false.
Proof.
  unfold CategoryListView_get_queryset.
  destruct (get_object_or_404 _) as [found|e] eqn:Hget; simpl.
  - split; [done|]. intros Hnone. exfalso.
    apply get_object_or_404_Return in Hget.
    assert (found ∈ filter (λ r, Category.slug r.2 = slug
                                 ∧ Category.is_published r.2 = true)
                      (objects (categories db))) as Hin
      by (rewrite Hget; left).
    apply list_elem_of_filter in Hin as [[Hslug Hpub] Hin].
    apply elem_of_objects_pair in Hin.
    specialize (Hnone _ _ Hin Hslug). congruence.
  - split.
    + intros [= ->]. apply get_object_or_404_Http404 in Hget.
      intros c cat Hc Hslug.
      destruct (Category.is_published cat) eqn:Hpub; [exfalso|done].
      apply (proj1 (filter_nil_iff _ _) Hget (c, cat));
        [by apply elem_of_objects|done].
    + intros Hnone. f_equal.
      assert (filter (λ r, Category.slug r.2 = slug
                           ∧ Category.is_published r.2 = true)
                (objects (categories db)) = []) as Hnil.
      { apply filter_nil_iff. intros [c cat] Hin [Hslug Hpub].
        apply elem_of_objects in Hin. simpl in *.
        specialize (Hnone _ _ Hin Hslug). congruence. }
      rewrite Hnil in Hget. by injection Hget.
Qed.

(** Slugs being unique, every post on the home listing is on the page of
    its category: the home listing shows nothing that no category page
    shows. *)
Theorem IndexHome_posts_are_on_their_category_page db now i p :
  unique_slugs db →
  (i, p) ∈ IndexHome_get_queryset db now →
  ∃ c cat qs,
    Post.category p = Some c
    ∧ categories db !! c = Some cat
    ∧ CategoryListView_get_queryset db now (Category.slug cat)
      = Return ((c, cat), qs)
    ∧ (i, p) ∈ qs.
Proof.
  intros Huniq Hin.
  pose proof Hin as (Hi & Hpub & Hdate & Hjoin)%elem_of_IndexHome_get_queryset.
  pose proof Hjoin as (c & cat & Hcat & Hc & Hcpub)%category__is_published_true.
  exists c, cat. eexists. split; [done|]. split; [done|].
  unfold CategoryListView_get_queryset.
  rewrite (get_category_by_slug db c cat) by done. rewrite Hcpub. simpl.
  split; [done|].
  rewrite list_elem_of_filter, elem_of_PostListMixin_get_queryset. simpl.
  tauto.
Qed.

Lemma IndexHome_posts_are_on_their_category_page_witness :
  ∃ c cat qs,
    Post.category Sample.live_post = Some c
    ∧ categories Sample.db !! c = Some cat
    ∧ CategoryListView_get_queryset Sample.db Sample.now (Category.slug cat)
      = Return ((c, cat), qs)
    ∧ (1, Sample.live_post) ∈ qs.
Proof.
  apply (IndexHome_posts_are_on_their_category_page Sample.db Sample.now 1
           Sample.live_post).
  - apply (bool_decide_unpack _). vm_compute. exact I.
  - apply elem_of_IndexHome_get_queryset.
    split; [reflexivity|]. split; [reflexivity|]. split; [|reflexivity].
    unfold Sample.now. simpl. lia.
Defined.

(** ** blog/views.py: the profile page *)

(** The profile page answers with [Http404] exactly when no stored user has
    the name. *)
Theorem ProfileView_not_found_iff db user username :
  ProfileView_get_queryset db user username = Raise Http404
  ↔ ∀ a row, users db !! a = Some row → User.username row ≠ username.
Proof.
  unfold ProfileView_get_queryset.
  destruct (get_object_or_404 _) as [found|e] eqn:Hget; simpl.
  - split; [by case_decide|]. intros Hnone. exfalso.
    apply get_object_or_404_Return in Hget.
    assert (found ∈ filter (λ r, User.username r.2 = username)
                      (objects (users db))) as Hin
      by (rewrite Hget; left).
    apply list_elem_of_filter in Hin as [Hname Hin].
    apply elem_of_objects_pair in Hin. by apply (Hnone _ _ Hin).
  - split.
    + intros [= ->]. apply get_object_or_404_Http404 in Hget.
      intros a row Ha Hname.
      apply (proj1 (filter_nil_iff _ _) Hget (a, row));
        [by apply elem_of_objects|done].
    + intros Hnone. f_equal.
      assert (filter (λ r, User.username r.2 = username)
                (objects (users db)) = []) as Hnil.
      { apply filter_nil_iff. intros [a row] Hin Hname.
        apply elem_of_objects in Hin. by apply (Hnone _ _ Hin). }
      rewrite Hnil in Hget. by injection Hget.
Qed.

(** The listing of a profile page holds the stored posts of the user the
    page is about: all of them when that user asks, and for anybody else
    those that are published and in a published category.  The date of a
    post and the time of the request play no part. *)
Theorem ProfileView_listing db user username author qs :
  ProfileView_get_queryset db user username = Return (author, qs) →
  users db !! author.1 = Some author.2
  ∧ User.username author.2 = username
  ∧ ∀ i p, (i, p) ∈ qs ↔
      posts db !! i = Some p
      ∧ Post.author p = author.1
      ∧ (user_pk user = Some author.1
         ∨ (Post.is_published p = true
            ∧ category__is_published db p = true)).
Proof.
  unfold ProfileView_get_queryset.
  destruct (get_object_or_404 _) as [found|] eqn:Hget; simpl; [|done].
  apply get_object_or_404_Return in Hget.
  assert (found ∈ filter (λ r, User.username r.2 = username)
                    (objects (users db))) as Hin
    by (rewrite Hget; left).
  apply list_elem_of_filter in Hin as [Hname Hin].
  apply elem_of_objects_pair in Hin.
  destruct (decide (Some found.1 ≠ user_pk user)) as [Hother|Hsame];
    intros [= <- <-]; (split; [done|]); (split; [done|]); intros i p;
    rewrite list_elem_of_filter, elem_of_PostListMixin_get_queryset; simpl.
  - split; [tauto|]. intros (? & ? & [?|?]); [congruence|tauto].
  - assert (user_pk user = Some found.1) as Hpk.
    { destruct (decide (user_pk user = Some found.1)); [done|].
      destruct Hsame. congruence. }
    tauto.
Qed.

Lemma ProfileView_listing_witness :
  users Sample.db !! 1 = Some Sample.alice
  ∧ User.username Sample.alice = "alice"
  ∧ ∀ i p,
      (i, p) ∈ filter (λ r, Post.is_published r.2 = true
                            ∧ category__is_published Sample.db r.2 = true
                            ∧ Post.author r.2 = 1)
                 (PostListMixin_get_queryset Sample.db)
      ↔ posts Sample.db !! i = Some p
        ∧ Post.author p = 1
        ∧ (user_pk Sample.as_bob = Some 1
           ∨ (Post.is_published p = true
              ∧ category__is_published Sample.db p = true)).
Proof.
  apply (ProfileView_listing Sample.db Sample.as_bob "alice"
           (1, Sample.alice)).
  vm_compute. reflexivity.
Defined.

(** Who the viewer is matters to the profile listing only through whether
    the viewer is the user of the page: two viewers who are not get the same
    listing, and the user of the page gets a listing that holds every post
    any other viewer gets. *)
Theorem ProfileView_depends_on_ownership_only
    db viewer other username author qs :
  ProfileView_get_queryset db viewer username = Return (author, qs) →
  user_pk viewer ≠ Some author.1 →
  (user_pk other ≠ Some author.1 →
   ProfileView_get_queryset db other username = Return (author, qs))
  ∧ (user_pk other = Some author.1 →
     ∃ own, ProfileView_get_queryset db other username = Return (author, own)
            ∧ qs ⊆ own).
Proof.
  unfold ProfileView_get_queryset.
  destruct (get_object_or_404 _) as [found|]; simpl; [|done].
  destruct (decide (Some found.1 ≠ user_pk viewer)) as [|Hsame];
    intros [= <- <-] Hviewer; [|destruct Hsame; congruence].
  split; intros Hother.
  - destruct (decide (Some found.1 ≠ user_pk other)) as [|Hsame]; [done|].
    destruct Hsame. congruence.
  - destruct (decide (Some found.1 ≠ user_pk other)); [congruence|].
    eexists. split; [done|]. intros r.
    rewrite !list_elem_of_filter. tauto.
Qed.

Lemma ProfileView_depends_on_ownership_only_witness :
  (user_pk AnonymousUser ≠ Some 1 →
   ProfileView_get_queryset Sample.db AnonymousUser "alice"
   = ProfileView_get_queryset Sample.db Sample.as_bob "alice")
  ∧ (user_pk Sample.as_alice = Some 1 →
     ∃ own,
       ProfileView_get_queryset Sample.db Sample.as_alice "alice"
       = Return ((1, Sample.alice), own)
       ∧ filter (λ r, Post.is_published r.2 = true
                      ∧ category__is_published Sample.db r.2 = true
                      ∧ Post.author r.2 = 1)
            (PostListMixin_get_queryset Sample.db) ⊆ own).
Proof.
  split.
  - intros Hanon.
    rewrite (proj1 (ProfileView_depends_on_ownership_only Sample.db
                      Sample.as_bob AnonymousUser "alice" (1, Sample.alice) _
                      eq_refl ltac:(discriminate)) Hanon).
    reflexivity.
  - apply (ProfileView_depends_on_ownership_only Sample.db Sample.as_bob
             Sample.as_alice "alice" (1, Sample.alice));
      [reflexivity|discriminate].
Defined.

(** A post on the listing another user gets of a profile opens for that
    user exactly when it is not dated after the request: the listing can
    show a post whose detail page is the 404 response. *)
Theorem ProfileView_visitor_link_opens_iff
    db now user username author qs i p :
  ProfileView_get_queryset db user username = Return (author, qs) →
  user_pk user ≠ Some author.1 →
  (i, p) ∈ qs →
  (PostDetailView db now user i
   = (db, TemplateResponse "blog/detail.html"
            (PostDetailView_get_context_data db (i, p)))
   ↔ Post.pub_date p ≤ now)
  ∧ (PostDetailView db now user i = (db, HttpResponseNotFound)
     ↔ now < Post.pub_date p).
Proof.
  intros Hqs Hvisitor Hin.
  destruct (elem_of_ProfileView_get_queryset _ _ _ _ _ _ _ Hqs Hin)
    as (Hi & Hauthor & Hflags).
  destruct Hflags as [Hpub Hcat]; [congruence|].
  rewrite PostDetailView_eq, Hi.
  case_decide as Hsees; split; split; try done; intros; simplify_eq.
  - destruct Hsees as [?|(_ & ? & _)]; [congruence|done].
  - destruct Hsees as [?|(_ & ? & _)]; [congruence|lia].
  - destruct Hsees. right. done.
  - destruct (decide (Post.pub_date p ≤ now)); [|lia].
    destruct Hsees. right. done.
Qed.

Lemma ProfileView_visitor_link_opens_iff_witness :
  (PostDetailView Sample.db Sample.now Sample.as_bob 2
   = (Sample.db, TemplateResponse "blog/detail.html"
                   (PostDetailView_get_context_data Sample.db
                      (2, Sample.future_post)))
   ↔ Post.pub_date Sample.future_post ≤ Sample.now)
  ∧ (PostDetailView Sample.db Sample.now Sample.as_bob 2
     = (Sample.db, HttpResponseNotFound)
     ↔ Sample.now < Post.pub_date Sample.future_post).
Proof.
  apply (ProfileView_visitor_link_opens_iff Sample.db Sample.now
           Sample.as_bob "alice" (1, Sample.alice) _ 2 Sample.future_post
           eq_refl).
  - discriminate.
  - vm_compute. left.
Defined.

(** ** blog/views.py: what a request can change *)

(** A request to create either leaves the store as it is or adds one row
    under the next key. *)
Lemma CreatePostView_cases db user request :
  (CreatePostView db user request).1 = db
  ∨ ∃ p, (CreatePostView db user request).1
         = set_posts db (<[next_pk (posts db) := p]> (posts db)).
Proof.
  unfold CreatePostView, LoginRequiredMixin_dispatch.
  destruct user as [|pk row]; simpl; [by left|].
  destruct request as [|data]; simpl; [by left|].
  destruct (PostForm_is_valid db data); simpl; [|by left]. right. eauto.
Qed.

Lemma CommentCreateView_cases db user post_id request :
  (CommentCreateView db user post_id request).1 = db
  ∨ (is_Some (posts db !! post_id)
     ∧ ∃ cm, (CommentCreateView db user post_id request).1
             = set_comments db (<[next_pk (comments db) := cm]> (comments db))
             ∧ Comment.post cm = post_id).
Proof.
  unfold CommentCreateView, LoginRequiredMixin_dispatch.
  destruct user as [|pk row]; simpl; [by left|].
  destruct request as [|data]; simpl; [by left|].
  destruct (CommentForm_is_valid db data); simpl; [|by left].
  unfold CommentCreateView_form_valid. rewrite get_object_or_404_pk.
  destruct (posts db !! post_id); simpl; [|by left]. right. eauto.
Qed.

(** The three views that store something without asking who owns what
    (a new post, a new comment, the own profile) leave the store as it is
    unless the request is a POST of a logged-in user whose form is valid;
    a comment is stored only if its post is. *)
Theorem store_changes_only_on_valid_post db user :
  (∀ request,
     (CreatePostView db user request).1 ≠ db →
     is_authenticated user = true
     ∧ ∃ data, request = POST data ∧ PostForm_is_valid db data = true)
  ∧ (∀ post_id request,
       (CommentCreateView db user post_id request).1 ≠ db →
       is_authenticated user = true
       ∧ is_Some (posts db !! post_id)
       ∧ ∃ data, request = POST data ∧ CommentForm_is_valid db data = true)
  ∧ (∀ request,
       (ProfileUpdateView db user request).1 ≠ db →
       ∃ pk row data,
         user = Authenticated pk row ∧ request = POST data
         ∧ UserForm_is_valid db pk data = true).
Proof.
  split; [|split].
  - intros request. unfold CreatePostView, LoginRequiredMixin_dispatch.
    destruct user as [|pk row]; simpl; [done|].
    destruct request as [|data]; simpl; [done|].
    destruct (PostForm_is_valid db data) eqn:Hvalid; simpl; [|done]. eauto.
  - intros post_id request.
    unfold CommentCreateView, LoginRequiredMixin_dispatch.
    destruct user as [|pk row]; simpl; [done|].
    destruct request as [|data]; simpl; [done|].
    destruct (CommentForm_is_valid db data) eqn:Hvalid; simpl; [|done].
    unfold CommentCreateView_form_valid. rewrite get_object_or_404_pk.
    destruct (posts db !! post_id); simpl; [eauto|done].
  - intros request. unfold ProfileUpdateView, LoginRequiredMixin_dispatch.
    destruct user as [|pk row]; simpl; [done|].
    destruct request as [|data]; simpl; [done|].
    destruct (UserForm_is_valid db pk data) eqn:Hvalid; simpl; [|done].
    eauto 10.
Qed.

(** Creating a post or a comment changes no row that is stored: the new row
    gets a key of its own, and the other tables stay as they are. *)
Theorem creation_keeps_stored_rows db user :
  (∀ request,
     (∀ i p, posts db !! i = Some p →
             posts (CreatePostView db user request).1 !! i = Some p)
     ∧ users (CreatePostView db user request).1 = users db
     ∧ categories (CreatePostView db user request).1 = categories db
     ∧ locations (CreatePostView db user request).1 = locations db
     ∧ comments (CreatePostView db user request).1 = comments db)
  ∧ (∀ post_id request,
       (∀ c cm, comments db !! c = Some cm →
                comments (CommentCreateView db user post_id request).1 !! c
                = Some cm)
       ∧ users (CommentCreateView db user post_id request).1 = users db
       ∧ categories (CommentCreateView db user post_id request).1
         = categories db
       ∧ locations (CommentCreateView db user post_id request).1
         = locations db
       ∧ posts (CommentCreateView db user post_id request).1 = posts db).
Proof.
  split.
  - intros request.
    destruct (CreatePostView_cases db user request) as [->|(p & ->)];
      [done|]. simpl. split; [|done].
    intros i q Hi. rewrite lookup_insert_ne; [done|].
    intros <-. rewrite next_pk_fresh in Hi. done.
  - intros post_id request.
    destruct (CommentCreateView_cases db user post_id request)
      as [->|(_ & cm & -> & _)]; [done|]. simpl. split; [|done].
    intros c cm' Hc. rewrite lookup_insert_ne; [done|].
    intros <-. rewrite next_pk_fresh in Hc. done.
Qed.

(** If the post of every stored comment is stored, this is still so after
    any request to create a comment or a post. *)
Theorem creation_keeps_comments_on_posts db user :
  comments_have_posts db →
  (∀ post_id request,
     comments_have_posts (CommentCreateView db user post_id request).1)
  ∧ (∀ request, comments_have_posts (CreatePostView db user request).1).
Proof.
  intros Hinv. split.
  - intros post_id request.
    destruct (CommentCreateView_cases db user post_id request)
      as [->|(Hpost & cm & -> & Hcm)]; [done|].
    intros c cm'. simpl. rewrite lookup_insert.
    case_decide; [|apply Hinv]. intros [= ?]. by subst.
  - intros request.
    destruct (CreatePostView_cases db user request) as [->|(p & ->)];
      [done|].
    intros c cm Hc. simpl in *. destruct (Hinv c cm Hc) as [q Hq].
    exists q. rewrite lookup_insert_ne; [done|].
    intros Heq. rewrite <- Heq, next_pk_fresh in Hq. done.
Qed.

Lemma Sample_comments_have_posts : comments_have_posts Sample.db.
Proof.
  intros c cm. simpl. rewrite lookup_insert. case_decide; [|done].
  intros [= <-]. by eexists.
Qed.

Lemma creation_keeps_comments_on_posts_witness :
  comments_have_posts
    (CommentCreateView Sample.db Sample.as_alice 5
       (POST Sample.comment_data)).1
  ∧ comments_have_posts
      (CreatePostView Sample.db Sample.as_alice (POST Sample.post_data)).1.
Proof.
  destruct (creation_keeps_comments_on_posts Sample.db Sample.as_alice
              Sample_comments_have_posts) as [Hcomment Hpost].
  split; [apply Hcomment|apply Hpost].
Defined.

(** The post a comment is stored with is the post of the path, whatever
    the client sends under the [post] key. *)
Theorem comment_is_stored_with_the_post_of_the_path db user post_id :
  (∀ data p,
     CommentCreateView db user post_id (POST (CommentData_set_post data p))
     = CommentCreateView db user post_id (POST data))
  ∧ (∀ request c cm,
       comments (CommentCreateView db user post_id request).1 !! c = Some cm →
       comments db !! c = Some cm ∨ Comment.post cm = post_id).
Proof.
  split; [done|]. intros request c cm.
  destruct (CommentCreateView_cases db user post_id request)
    as [->|(_ & cm' & -> & Hcm')]; [by left|].
  simpl. rewrite lookup_insert. case_decide; [|by left].
  intros [= <-]. by right.
Qed.

(** ** blog/views.py: a request after a request *)

Lemma category__is_published_set_posts db t p :
  category__is_published (set_posts db t) p = category__is_published db p.
Proof. done. Qed.

(** A post just created is served to its author on its detail page; it is
    on the home listing exactly when the form set it published, dated it
    not after the request and put it in a published category; and the home
    listing is otherwise what it was. *)
Theorem created_post_is_served db now user pk data :
  user_pk user = Some pk →
  PostForm_is_valid db data = true →
  ∃ db' p,
    CreatePostView db user (POST data)
    = (db', HttpResponseRedirect (reverse (profile (user_str user))))
    ∧ posts db !! next_pk (posts db) = None
    ∧ posts db' !! next_pk (posts db) = Some p
    ∧ PostDetailView db' now user (next_pk (posts db))
      = (db', TemplateResponse "blog/detail.html"
                (PostDetailView_get_context_data db'
                   (next_pk (posts db), p)))
    ∧ ((next_pk (posts db), p) ∈ IndexHome_get_queryset db' now
       ↔ PostData.is_published data = true
         ∧ (∃ date, PostData.pub_date data = Some date ∧ date ≤ now)
         ∧ ∃ c cat, PostData.category data = Some c
                    ∧ categories db !! c = Some cat
                    ∧ Category.is_published cat = true)
    ∧ ∀ j q, j ≠ next_pk (posts db) →
        ((j, q) ∈ IndexHome_get_queryset db' now
         ↔ (j, q) ∈ IndexHome_get_queryset db now).
Proof.
  intros Hpk Hvalid.
  rewrite (CreatePostView_valid db user pk) by done.
  eexists _, _. split; [done|]. split; [apply next_pk_fresh|].
  split; [apply lookup_insert_eq|]. split; [|split].
  - rewrite PostDetailView_eq. simpl. rewrite lookup_insert_eq.
    rewrite decide_True; [done|]. by left.
  - rewrite elem_of_IndexHome_get_queryset. simpl.
    rewrite lookup_insert_eq, category__is_published_set_posts.
    rewrite category__is_published_true. simpl.
    unfold PostForm_is_valid in Hvalid. simpl in Hvalid.
    destruct (PostData.pub_date data) as [date|]; simpl in *.
    + split.
      * intros (_ & ? & ? & ?). eauto.
      * intros (? & (date' & [= <-] & ?) & ?). done.
    + rewrite andb_false_r in Hvalid. simpl in Hvalid.
      rewrite andb_false_r in Hvalid. done.
  - intros j q Hj. rewrite !elem_of_IndexHome_get_queryset. simpl.
    rewrite lookup_insert_ne by done.
    by rewrite category__is_published_set_posts.
Qed.

Lemma created_post_is_served_witness :
  ∃ db' p,
    CreatePostView Sample.db Sample.as_alice (POST Sample.post_data)
    = (db', HttpResponseRedirect
              (reverse (profile (user_str Sample.as_alice))))
    ∧ posts Sample.db !! next_pk (posts Sample.db) = None
    ∧ posts db' !! next_pk (posts Sample.db) = Some p
    ∧ PostDetailView db' Sample.now Sample.as_alice
        (next_pk (posts Sample.db))
      = (db', TemplateResponse "blog/detail.html"
                (PostDetailView_get_context_data db'
                   (next_pk (posts Sample.db), p)))
    ∧ ((next_pk (posts Sample.db), p) ∈ IndexHome_get_queryset db' Sample.now
       ↔ PostData.is_published Sample.post_data = true
         ∧ (∃ date, PostData.pub_date Sample.post_data = Some date
                    ∧ date ≤ Sample.now)
         ∧ ∃ c cat, PostData.category Sample.post_data = Some c
                    ∧ categories Sample.db !! c = Some cat
                    ∧ Category.is_published cat = true)
    ∧ ∀ j q, j ≠ next_pk (posts Sample.db) →
        ((j, q) ∈ IndexHome_get_queryset db' Sample.now
         ↔ (j, q) ∈ IndexHome_get_queryset Sample.db Sample.now).
Proof.
  apply (created_post_is_served Sample.db Sample.now Sample.as_alice 1
           Sample.post_data); reflexivity.
Defined.



(** ** blog/urls.py: what a path resolves to *)

Lemma int_go_nonneg s : ∀ acc i, 0 ≤ acc → int_go acc s = Some i → 0 ≤ i.
Proof.
  induction s as [|c s IH]; simpl; intros acc i Hacc.
  - intros [= <-]. done.
  - unfold digit. case_decide; [|done]. apply IH. lia.
Qed.

Lemma int_converter_nonneg s i : int_converter s = Some i → 0 ≤ i.
Proof. destruct s; [done|]. by apply int_go_nonneg. Qed.

Lemma str_converter_Some s u : str_converter s = Some u → u = s ∧ s ≠ "".
Proof. destruct s; [done|]. by intros [= <-]. Qed.

Lemma slug_converter_Some s u :
  slug_converter s = Some u → u = s ∧ s ≠ "" ∧ all_slug_chars s = true.
Proof.
  unfold slug_converter. destruct s; [done|].
  destruct (all_slug_chars _) eqn:Hall; [|done]. by intros [= <-].
Qed.

Lemma split_path_no_slash path seg :
  seg ∈ split_path path → no_slash seg = true.
Proof.
  revert seg. induction path as [|c path IH]; simpl; intros seg.
  - by intros ->%list_elem_of_singleton.
  - case_decide as Hc.
    + intros [->|?]%elem_of_cons; [done|by apply IH].
    + destruct (split_path path) as [|seg0 segs]; simpl.
      * intros ->%list_elem_of_singleton. simpl.
        by rewrite bool_decide_eq_true_2.
      * intros [->|?]%elem_of_cons.
        -- simpl. rewrite bool_decide_eq_true_2 by done.
           apply IH. left.
        -- apply IH. by right.
Qed.

Lemma profile_urls_sound segs name :
  first_match profile_urls segs = Some name →
  name = edit_profile
  ∨ ∃ username, name = profile username ∧ username ∈ segs
                ∧ username ≠ "" ∧ username ≠ "edit".
Proof.
  unfold profile_urls, first_match.
  destruct segs as [|seg [|last rest]]; try done.
  destruct last, rest; try done.
  destruct (decide (seg = "edit")) as [->|Hseg]; [intros [= <-]; by left|].
  destruct (str_converter seg) as [u|] eqn:Hu; simpl; [|done].
  intros [= <-]. apply str_converter_Some in Hu as [-> ?].
  right. exists seg. repeat split; [left|done..].
Qed.

Local Opaque int_converter slug_converter str_converter.

Lemma posts_urls_sound segs name :
  first_match posts_urls segs = Some name →
  valid_kwargs name ∧ ∀ username, name ≠ profile username.
Proof.
  unfold posts_urls, first_match. intros Hmatch.
  repeat (case_match; simplify_eq/=; try done).
  all: repeat match goal with
         | H : _ <$> _ = Some _ |- _ =>
             apply fmap_Some in H as (? & ?%int_converter_nonneg & ->)
         | H : _ ≫= _ = Some _ |- _ =>
             apply bind_Some in H as (? & ?%int_converter_nonneg & ?)
         end; simplify_eq/=; try done.
Qed.

Lemma first_match_cons route routes segs name :
  first_match (route :: routes) segs = Some name →
  route segs = Some name ∨ first_match routes segs = Some name.
Proof. simpl. destruct (route segs); [intros [= <-]; by left|by right]. Qed.

Lemma include_Some prefix routes segs name :
  include prefix routes segs = Some name →
  ∃ rest, segs = prefix :: rest ∧ first_match routes rest = Some name.
Proof.
  unfold include. destruct segs as [|seg rest]; [done|].
  case_decide; [|done]. subst. eauto.
Qed.

(** Whatever path is asked for, the route it resolves to has keyword
    arguments [reverse] accepts: no view is handed a negative number, an
    empty user name or slug, or a name with a slash in it.  And no path
    resolves to the profile page of a user named "edit". *)
Theorem resolve_sound path name :
  resolve path = Some name →
  valid_kwargs name ∧ name ≠ profile "edit".
Proof.
  unfold resolve.
  destruct (split_path path) as [|seg0 segs] eqn:Hsplit; [done|].
  destruct seg0; [|done].
  assert (∀ seg, seg ∈ segs → no_slash seg = true) as Hsegs.
  { intros seg Hseg. apply (split_path_no_slash path).
    rewrite Hsplit. by right. }
  unfold urlpatterns.
  intros [Hindex|[Hposts|[Hcategory|[Hprofile|Hnone]%first_match_cons
    ]%first_match_cons]%first_match_cons]%first_match_cons.
  - repeat (case_match; simplify_eq/=; try done).
  - apply include_Some in Hposts as (rest & -> & Hposts).
    apply posts_urls_sound in Hposts as [? Hnot]. split; [done|apply Hnot].
  - repeat (case_match; simplify_eq/=; try done).
    apply fmap_Some in Hcategory as (? & (-> & ? & ?)%slug_converter_Some & ->).
    done.
  - apply include_Some in Hprofile as (rest & -> & Hprofile).
    apply profile_urls_sound in Hprofile
      as [->|(username & -> & Hin & Hne & Hedit)]; [done|].
    simpl. split; [|congruence]. split; [done|].
    apply Hsegs. by right.
  - done.
Qed.

Local Transparent int_converter slug_converter str_converter.

Lemma resolve_sound_witness :
  valid_kwargs (post_detail 7) ∧ post_detail 7 ≠ profile "edit".
Proof. apply (resolve_sound "/posts/007/"). vm_compute. reflexivity. Defined.
